(** * The HTTP component of Home Assistant: dispatcher, JSON helper,
      server start-up and the ban / authentication pipeline

    A shallow embedding of [homeassistant/components/http/__init__.py].
    Python values are an inductive type, exceptions are a result type, the
    side effects of the dispatcher (logging, calling the view's handler) are
    threaded through a small state-and-error monad, request items and
    failed-login counters are finite maps. *)

From Stdlib Require Import ZArith List Bool Lia Ascii.
From stdpp Require Import base option list gmap strings.

Set Warnings "-register-all".
Local Open Scope Z_scope.

(** ** Python values and exceptions *)

Module Py.

(** A [str] is a sequence of code points, a [bytes] a sequence of octets. *)
Definition pystr := list Z.
Definition pybytes := list Z.

(** An [aiohttp.web.StreamResponse] (or [web.Response]) object, described by
    the arguments it was built from; [compression] records a call of
    [enable_compression()].  [V] is the type of Python values. *)
Record StreamResponse_ (V : Type) : Type := mkResponse {
  body : option pybytes;
  status : V;
  content_type : option string;
  headers : option (list (string * string));
  compression : bool
}.
Arguments mkResponse {V}.
Arguments body {V}.
Arguments status {V}.
Arguments content_type {V}.
Arguments headers {V}.
Arguments compression {V}.

(** The values a handler can return.  [PyObject] stands for every other
    object (dict, list, float, ...): [repr] names it, [truth] is its truth
    value. *)
Inductive PyVal : Type :=
| PyNone
| PyBool (b : bool)
| PyInt (z : Z)
| PyStr (s : pystr)
| PyBytes (b : pybytes)
| PyTuple (l : list PyVal)
| PyStreamResponse (r : StreamResponse_ PyVal)
| PyObject (repr : string) (truth : bool).

Definition Response := StreamResponse_ PyVal.

(** [bool(v)]: the truth value of a Python value. *)
Definition truthy (v : PyVal) : bool :=
  match v with
  | PyNone => false
  | PyBool b => b
  | PyInt z => negb (z =? 0)
  | PyStr s => match s with [] => false | _ => true end
  | PyBytes b => match b with [] => false | _ => true end
  | PyTuple l => match l with [] => false | _ => true end
  | PyStreamResponse _ => true
  | PyObject _ t => t
  end.

Inductive Exception : Type :=
| HTTPUnauthorized
| AssertionError
| ValueError
| TypeError
| UnicodeEncodeError
| OSError (msg : string)
| OtherError (name : string).

Inductive Result (A : Type) : Type :=
| Return (a : A)
| Raise (e : Exception).
Arguments Return {A}.
Arguments Raise {A}.

Definition rbind {A B} (r : Result A) (k : A -> Result B) : Result B :=
  match r with
  | Return a => k a
  | Raise e => Raise e
  end.

(** *** [str.encode('utf-8')] *)

Definition is_surrogate (c : Z) : bool := (0xD800 <=? c) && (c <=? 0xDFFF).

(** The continuation octet carrying bits [6k+5 .. 6k] of [c]. *)
Definition cont_byte (c : Z) (k : Z) : Z :=
  Z.lor 0x80 (Z.land (Z.shiftr c (6 * k)) 0x3F).

(** One code point.  Python refuses lone surrogates with
    [UnicodeEncodeError]; a number outside [0 .. 0x10FFFF] is not a code
    point of any [str]. *)
Definition encode_code_point (c : Z) : Result pybytes :=
  if c <? 0 then Raise UnicodeEncodeError
  else if c <? 0x80 then Return [c]
  else if c <? 0x800 then
    Return [Z.lor 0xC0 (Z.shiftr c 6); cont_byte c 0]
  else if c <? 0x10000 then
    if is_surrogate c then Raise UnicodeEncodeError
    else Return [Z.lor 0xE0 (Z.shiftr c 12); cont_byte c 1; cont_byte c 0]
  else if c <? 0x110000 then
    Return [Z.lor 0xF0 (Z.shiftr c 18); cont_byte c 2; cont_byte c 1;
            cont_byte c 0]
  else Raise UnicodeEncodeError.

Fixpoint str_encode (s : pystr) : Result pybytes :=
  match s with
  | [] => Return []
  | c :: s' =>
      rbind (encode_code_point c) (fun bs =>
      rbind (str_encode s') (fun bs' => Return (bs ++ bs')))
  end.

(** The code points a [str] can be encoded from. *)
Definition encodable (c : Z) : bool :=
  (0 <=? c) && (c <? 0x110000) && negb (is_surrogate c).

(** *** [bytes.decode('utf-8')] *)

Definition is_octet (b : Z) : bool := (0 <=? b) && (b <? 256).

Definition is_continuation (b : Z) : bool := (0x80 <=? b) && (b <? 0xC0).

(** The six bits a continuation octet carries. *)
Definition payload (b : Z) : Z := Z.land b 0x3F.

(** The first character of [bs] and what follows it.  Stray continuation
    octets, truncated and overlong sequences, surrogates and numbers above
    [0x10FFFF] are refused. *)
Definition decode_code_point (bs : pybytes) : option (Z * pybytes) :=
  match bs with
  | [] => None
  | b0 :: r0 =>
      if b0 <? 0 then None
      else if b0 <? 0x80 then Some (b0, r0)
      else if b0 <? 0xC0 then None
      else if b0 <? 0xE0 then
        match r0 with
        | b1 :: r1 =>
            let c := Z.lor (Z.shiftl (Z.land b0 0x1F) 6) (payload b1) in
            if is_continuation b1 && negb (c <? 0x80) then Some (c, r1)
            else None
        | _ => None
        end
      else if b0 <? 0xF0 then
        match r0 with
        | b1 :: b2 :: r2 =>
            let c := Z.lor (Z.shiftl (Z.land b0 0x0F) 12)
                       (Z.lor (Z.shiftl (payload b1) 6) (payload b2)) in
            if is_continuation b1 && is_continuation b2
               && negb (c <? 0x800) && negb (is_surrogate c)
            then Some (c, r2) else None
        | _ => None
        end
      else if b0 <? 0xF8 then
        match r0 with
        | b1 :: b2 :: b3 :: r3 =>
            let c := Z.lor (Z.shiftl (Z.land b0 0x07) 18)
                       (Z.lor (Z.shiftl (payload b1) 12)
                          (Z.lor (Z.shiftl (payload b2) 6) (payload b3))) in
            if is_continuation b1 && is_continuation b2 && is_continuation b3
               && negb (c <? 0x10000) && (c <? 0x110000)
            then Some (c, r3) else None
        | _ => None
        end
      else None
  end.

(** Character after character; every character takes at least one octet,
    so [fuel] as large as the input is enough. *)
Fixpoint decode_from (fuel : nat) (bs : pybytes) : option pystr :=
  match bs with
  | [] => Some []
  | _ :: _ =>
      match fuel with
      | O => None
      | S fuel' =>
          match decode_code_point bs with
          | Some (c, rest) => option_map (cons c) (decode_from fuel' rest)
          | None => None
          end
      end
  end.

Definition bytes_decode (bs : pybytes) : option pystr :=
  decode_from (length bs) bs.

End Py.

(** ** The request dispatcher and the view base class *)

Module Dispatch.
Import Py.

(** [hass]: the host application; only [is_running] is read here. *)
Record HomeAssistant : Type := { is_running : bool }.

(** [request.app]: the aiohttp application, a mapping with a ['hass'] entry. *)
Record Application : Type := { app_hass : HomeAssistant }.

(** An aiohttp request: the application it belongs to, the mapping the
    middlewares leave their results in ([request[KEY] = ...]), the path and
    the parameters matched from the URL pattern. *)
Record Request : Type := {
  app : Application;
  items : gmap string PyVal;
  path : string;
  match_info : list (string * string)
}.

(** [HomeAssistantView]: the class attributes of a view. *)
Record HomeAssistantView : Type := {
  url : option string;
  extra_urls : list string;
  requires_auth : bool
}.

(** What the dispatcher does besides computing its result. *)
Inductive Event : Type :=
| LogInfo (path : string) (real_ip : option PyVal) (authenticated : PyVal)
| HandlerCalled (request : Request) (kwargs : list (string * string)).

Section WithWorld.
(** The state handlers read and write (the state machine of the hub). *)
Context {World : Type}.

(** The keys of [.const] under which the middlewares store the
    authentication marker and the source address. *)
Variables KEY_AUTHENTICATED KEY_REAL_IP : string.

Record DState : Type := { world : World; events : list Event }.

(** Computations that read and write [DState] and may raise. *)
Definition M (A : Type) : Type := DState -> Result A * DState.

Definition ret {A} (a : A) : M A := fun st => (Return a, st).
Definition throw {A} (e : Exception) : M A := fun st => (Raise e, st).
Definition bind {A B} (m : M A) (k : A -> M B) : M B :=
  fun st =>
    match m st with
    | (Return a, st') => k a st'
    | (Raise e, st') => (Raise e, st')
    end.
Definition lift {A} (r : Result A) : M A := fun st => (r, st).
Definition emit (e : Event) : M unit :=
  fun st => (Return tt, {| world := world st; events := events st ++ [e] |}).

(** A bound method [get], [post], [delete] or [put] of a view, called as
    [handler(request, **request.match_info)]; when the call gives a
    coroutine, the value is the one the coroutine finishes with. *)
Definition Handler : Type :=
  Request -> list (string * string) -> World -> Result PyVal * World.

Definition call (handler : Handler) (request : Request)
    (kwargs : list (string * string)) : M PyVal :=
  fun st =>
    let '(r, w) := handler request kwargs (world st) in
    (r, {| world := w;
           events := events st ++ [HandlerCalled request kwargs] |}).

(** [web.Response(body=..., status=...)]: the response as the arguments
    it is built from.  What the constructor of aiohttp does with them (it
    takes the status through [int], and refuses some combinations of
    arguments) is the library's, which is not in this repository: the
    record is the response for an integer status. *)
Definition web_Response (body : option pybytes) (status : PyVal) : Response :=
  mkResponse body status None None false.

(** [result, status_code = result] when [result] is a tuple. *)
Definition unpack_body_status (l : list PyVal) : Result (PyVal * PyVal) :=
  match l with
  | [b; s] => Return (b, s)
  | _ => Raise ValueError
  end.

(** The [if isinstance(result, str) ... elif ... assert False] chain.
    Assertions are taken as enabled (no [-O]). *)
Definition coerce_body (result : PyVal) : Result pybytes :=
  match result with
  | PyStr s => str_encode s
  | PyNone => Return []
  | PyBytes b => Return b
  | _ => Raise AssertionError
  end.

(** [request.get(KEY_AUTHENTICATED, False)] *)
Definition authenticated_of (request : Request) : PyVal :=
  default (PyBool false) (items request !! KEY_AUTHENTICATED).

(** The end of [handle], from [isinstance(result, web.StreamResponse)]
    on: what becomes of the value the handler gave. *)
Definition respond (result : PyVal) : Result Response :=
  match result with
  | PyStreamResponse r => Return r
  | _ =>
      rbind (match result with
             | PyTuple l => unpack_body_status l
             | _ => Return (result, PyInt 200)
             end) (fun '(result, status_code) =>
      rbind (coerce_body result) (fun result =>
      Return (web_Response (Some result) status_code)))
  end.

(** [handle(request)], the closure [request_handler_factory] returns. *)
Definition handle (view : HomeAssistantView) (handler : Handler)
    (request : Request) : M Response :=
  if negb (is_running (app_hass (app request))) then
    ret (web_Response None (PyInt 503))
  else
    let authenticated := authenticated_of request in
    if requires_auth view && negb (truthy authenticated) then
      throw HTTPUnauthorized
    else
      bind (emit (LogInfo (path request) (items request !! KEY_REAL_IP)
                          authenticated)) (fun _ =>
      bind (call handler request (match_info request)) (fun result =>
      lift (respond result))).

(** The request passes the two guards of [handle]. *)
Definition admitted (view : HomeAssistantView) (request : Request) : Prop :=
  is_running (app_hass (app request)) = true /\
  (requires_auth view = false \/ truthy (authenticated_of request) = true).

(** The state after [handle] has logged the request and called the
    handler, which left the world as [w]. *)
Definition after_call (request : Request) (w : World) (st : DState) : DState :=
  {| world := w;
     events := events st
               ++ [LogInfo (path request) (items request !! KEY_REAL_IP)
                           (authenticated_of request);
                   HandlerCalled request (match_info request)] |}.

(** The specification's conforming results: a response object, or a body
    ([None], a string or bytes), bare or as the first component of a
    (body, status) pair. *)
Definition is_body (v : PyVal) : bool :=
  match v with
  | PyNone | PyStr _ | PyBytes _ => true
  | _ => false
  end.

Definition conforming (v : PyVal) : bool :=
  match v with
  | PyStreamResponse _ => true
  | PyTuple [b; _] => is_body b
  | PyTuple _ => false
  | _ => is_body v
  end.

(** A tuple that does not have exactly two components. *)
Definition not_a_pair (v : PyVal) : bool :=
  match v with
  | PyTuple [_; _] => false
  | PyTuple _ => true
  | _ => false
  end.

(** [request_handler_factory(view, handler)]: the assertion on the kind
    of [handler] is checked when the view is registered. *)
Definition request_handler_factory (view : HomeAssistantView)
    (is_coroutine_or_callback : bool) (handler : Handler)
    : Result (Request -> M Response) :=
  if is_coroutine_or_callback then Return (handle view handler)
  else Raise AssertionError.

(** *** [HomeAssistantView.json] *)

(** [json.dumps(result, sort_keys=..., cls=rem.JSONEncoder)], from the
    standard library and [homeassistant.remote]; it raises on a value it
    cannot serialize. *)
Variable json_dumps : forall (sort_keys : bool), PyVal -> Result pystr.

(** [homeassistant.const.CONTENT_TYPE_JSON] *)
Variable CONTENT_TYPE_JSON : string.

Definition enable_compression (r : Response) : Response :=
  mkResponse (body r) (status r) (content_type r) (headers r) true.

(** [HomeAssistantView.json]; the response is described by the arguments
    [web.Response] is given, as [web_Response] is. *)
Definition json (result : PyVal) (status_code : PyVal)
    (hdrs : option (list (string * string))) : Result Response :=
  rbind (json_dumps true result) (fun s =>
  rbind (str_encode s) (fun msg =>
  let response :=
    mkResponse (Some msg) status_code (Some CONTENT_TYPE_JSON) hdrs false in
  Return (enable_compression response))).

(** [self.json(result)]: [status_code=200, headers=None]. *)
Definition json_with_defaults (result : PyVal) : Result Response :=
  json result (PyInt 200) None.

End WithWorld.

End Dispatch.

(** ** Starting the server *)

Module Lifecycle.
Import Py.

(** The TLS context [start] builds, the handler [app.make_handler] gives and
    the server [loop.create_server] gives. *)
Record SSLContext : Type := { cert_chain : string; private_key : option string }.
Inductive RequestHandler : Type := AppHandler.
Record Server : Type := {
  bound_host : string;
  bound_port : Z;
  tls : option SSLContext
}.

(** What [start] does, in the order it does it. *)
Inductive Step : Type :=
| AppStartup
| CertLoaded
| CertErrorLogged (certificate : string) (error : string)
| HandlerMade
| ServerCreated
| BindErrorLogged (port : Z) (error : string)
| MiddlewaresPrepared.

(** The fields of [HomeAssistantHTTP] (and of its [app]) that [start]
    reads and writes; [steps] is the record of what has been done. *)
Record HomeAssistantHTTP : Type := {
  ssl_certificate : option string;
  ssl_key : option string;
  server_host : string;
  server_port : Z;
  app_frozen : bool;
  app_middlewares_prepared : bool;
  _handler : option RequestHandler;
  server : option Server;
  steps : list Step
}.

(** The operating system and the event loop: loading the certificate chain
    and binding the socket succeed or raise. *)
Record Env : Type := {
  load_cert_chain : string -> option string -> Result SSLContext;
  create_server :
    RequestHandler -> string -> Z -> option SSLContext -> Result Server
}.

Definition did (s : Step) (self : HomeAssistantHTTP) : HomeAssistantHTTP :=
  {| ssl_certificate := ssl_certificate self; ssl_key := ssl_key self;
     server_host := server_host self; server_port := server_port self;
     app_frozen := app_frozen self;
     app_middlewares_prepared := app_middlewares_prepared self;
     _handler := _handler self; server := server self;
     steps := steps self ++ [s] |}.

Definition set_frozen (b : bool) (self : HomeAssistantHTTP) : HomeAssistantHTTP :=
  {| ssl_certificate := ssl_certificate self; ssl_key := ssl_key self;
     server_host := server_host self; server_port := server_port self;
     app_frozen := b;
     app_middlewares_prepared := app_middlewares_prepared self;
     _handler := _handler self; server := server self;
     steps := steps self |}.

Definition set_middlewares_prepared (self : HomeAssistantHTTP) : HomeAssistantHTTP :=
  {| ssl_certificate := ssl_certificate self; ssl_key := ssl_key self;
     server_host := server_host self; server_port := server_port self;
     app_frozen := app_frozen self;
     app_middlewares_prepared := true;
     _handler := _handler self; server := server self;
     steps := steps self |}.

Definition set_handler (h : RequestHandler) (self : HomeAssistantHTTP) : HomeAssistantHTTP :=
  {| ssl_certificate := ssl_certificate self; ssl_key := ssl_key self;
     server_host := server_host self; server_port := server_port self;
     app_frozen := app_frozen self;
     app_middlewares_prepared := app_middlewares_prepared self;
     _handler := Some h; server := server self;
     steps := steps self |}.

Definition set_server (s : Server) (self : HomeAssistantHTTP) : HomeAssistantHTTP :=
  {| ssl_certificate := ssl_certificate self; ssl_key := ssl_key self;
     server_host := server_host self; server_port := server_port self;
     app_frozen := app_frozen self;
     app_middlewares_prepared := app_middlewares_prepared self;
     _handler := _handler self; server := Some s;
     steps := steps self |}.

(** [__init__]: nothing started yet. *)
Definition init (certificate key : option string) (host : string) (port : Z)
    : HomeAssistantHTTP :=
  {| ssl_certificate := certificate; ssl_key := key;
     server_host := host; server_port := port;
     app_frozen := false; app_middlewares_prepared := false;
     _handler := None; server := None; steps := [] |}.

(** The last two statements of [start]. *)
Definition unfreeze (self : HomeAssistantHTTP) : Result unit * HomeAssistantHTTP :=
  (Return tt,
   set_frozen false (did MiddlewaresPrepared (set_middlewares_prepared self))).

(** [start] from [self.app._frozen = True] on, with the TLS context. *)
Definition listen (env : Env) (context : option SSLContext)
    (self : HomeAssistantHTTP) : Result unit * HomeAssistantHTTP :=
  let self := set_frozen true self in
  let self := did HandlerMade (set_handler AppHandler self) in
  match create_server env AppHandler (server_host self) (server_port self)
          context with
  | Return srv => unfreeze (did ServerCreated (set_server srv self))
  | Raise (OSError error) =>
      unfreeze (did (BindErrorLogged (server_port self) error) self)
  | Raise e => (Raise e, self)
  end.

(** The value of [context] when [start] gets to the bind: no TLS when no
    certificate is configured, else the context with the chain loaded. *)
Definition tls_context (env : Env) (self : HomeAssistantHTTP)
    : Result (option SSLContext) :=
  match ssl_certificate self with
  | Some certificate =>
      if String.eqb certificate "" then Return None
      else rbind (load_cert_chain env certificate (ssl_key self))
                 (fun context => Return (Some context))
  | None => Return None
  end.

(** [HomeAssistantHTTP.start] *)
Definition start (env : Env) (self : HomeAssistantHTTP)
    : Result unit * HomeAssistantHTTP :=
  let self := did AppStartup self in
  match ssl_certificate self with
  | Some certificate =>
      if String.eqb certificate "" then listen env None self
      else
        match load_cert_chain env certificate (ssl_key self) with
        | Return context => listen env (Some context) (did CertLoaded self)
        | Raise (OSError error) =>
            (Return tt, did (CertErrorLogged certificate error) self)
        | Raise e => (Raise e, self)
        end
  | None => listen env None self
  end.

(** The claim that a failed bind aborts the start: the error is logged, no
    handler stays installed, and logging the error is the last thing done. *)
Definition bind_failure_aborts (env : Env) (self : HomeAssistantHTTP) : Prop :=
  forall context error,
    tls_context env self = Return context ->
    create_server env AppHandler (server_host self) (server_port self) context
    = Raise (OSError error) ->
    let self' := snd (start env self) in
    _handler self' = None
    /\ last (steps self') = Some (BindErrorLogged (server_port self) error).

End Lifecycle.

(** ** Bans and authentication in front of the dispatcher *)

Module Bans.

(** Line 76 of the source. *)
Definition NO_LOGIN_ATTEMPT_THRESHOLD : Z := -1.

(** A source address (IPv4, as a number) and a network in CIDR form, as
    [ip_network] of the schema gives it. *)
Definition Addr : Type := Z.
Record IPNetwork : Type := { network_address : Z; prefixlen : Z }.

Definition broadcast_address (n : IPNetwork) : Z :=
  Z.lor (network_address n) (Z.ones (32 - prefixlen n)).

Definition in_network (a : Addr) (n : IPNetwork) : bool :=
  (network_address n <=? a) && (a <=? broadcast_address n).

(** The arguments [async_setup] reads from the configuration and passes to
    [HomeAssistantHTTP]. *)
Record Config : Type := {
  api_password : option string;
  cors_origins : list string;
  use_x_forwarded_for : bool;
  trusted_networks : list IPNetwork;
  login_threshold : Z;
  is_ban_enabled : bool
}.

(** [HTTP_SCHEMA({})]: the defaults of the schema. *)
Definition default_config : Config :=
  {| api_password := None; cors_origins := []; use_x_forwarded_for := false;
     trusted_networks := []; login_threshold := NO_LOGIN_ATTEMPT_THRESHOLD;
     is_ban_enabled := true |}.

(** Modelled from the spec: what [setup_real_ip], [setup_bans],
    [setup_auth] and [setup_cors] of [.real_ip], [.ban], [.auth] and [.cors]
    install on the application (section 2), each with the arguments
    [__init__] passes to it. *)
Inductive Middleware : Type :=
| staticresource_middleware
| real_ip_middleware (use_x_forwarded_for : bool)
| ban_middleware (login_threshold : Z)
| auth_middleware (trusted_networks : list IPNetwork)
                  (api_password : option string)
| cors_middleware (origins : list string).

(** The application: its middlewares, outermost first. *)
Definition App : Type := list Middleware.

(** Modelled from the spec: the four [setup_*] functions, which are not in
    this file; each adds its component behind those installed before. *)
Definition setup_real_ip (app : App) (use_x_forwarded_for : bool) : App :=
  app ++ [real_ip_middleware use_x_forwarded_for].
Definition setup_bans (app : App) (login_threshold : Z) : App :=
  app ++ [ban_middleware login_threshold].
Definition setup_auth (app : App) (trusted_networks : list IPNetwork)
    (api_password : option string) : App :=
  app ++ [auth_middleware trusted_networks api_password].
Definition setup_cors (app : App) (origins : list string) : App :=
  app ++ [cors_middleware origins].

(** [HomeAssistantHTTP.__init__]: the application it builds. *)
Definition HomeAssistantHTTP_init (cfg : Config) : App :=
  let app := [staticresource_middleware] in
  let app := setup_real_ip app (use_x_forwarded_for cfg) in
  let app := if is_ban_enabled cfg then setup_bans app (login_threshold cfg)
             else app in
  let app := setup_auth app (trusted_networks cfg) (api_password cfg) in
  let app := match cors_origins cfg with
             | [] => app
             | _ => setup_cors app (cors_origins cfg)
             end in
  app.

(** Modelled from the spec: a request as the Authenticator and the Ban
    Tracker see it (section 4.1): the source address and the credential
    presented, if any. *)
Record Request : Type := { remote : Addr; credential : option string }.

(** Modelled from the spec: the BanRecord of section 3, the failed-attempt
    count of every address; and how many times the credential check has
    run. *)
Record State : Type := {
  failed_login_attempts : gmap Z nat;
  credential_checks : nat
}.

Definition initial_state : State :=
  {| failed_login_attempts := ∅; credential_checks := 0 |}.

Definition attempts (st : State) (a : Addr) : nat :=
  default 0%nat (failed_login_attempts st !! a).

(** The request is either rejected by the ban tracker or handed to the
    dispatcher with its authentication marker. *)
Inductive Outcome : Type :=
| Rejected
| Dispatched (authenticated : bool).

(** Modelled from the spec: the Authenticator of [.auth] (section 4.1).  A
    request is authenticated if its source address is within a trusted
    network or the presented credential equals the configured one; with no
    credential configured every request is authenticated. *)
Definition validate (trusted : list IPNetwork) (password : option string)
    (req : Request) : bool :=
  match password with
  | None => true
  | Some pw =>
      existsb (in_network (remote req)) trusted
      || match credential req with
         | Some c => String.eqb c pw
         | None => false
         end
  end.

(** Modelled from the spec: the Ban Tracker of [.ban] (section 4.2).  Once
    the count is at least the threshold the address is blocked; the
    threshold "unlimited" disables the lockout. *)
Definition is_banned (threshold : Z) (count : nat) : bool :=
  negb (threshold =? NO_LOGIN_ATTEMPT_THRESHOLD) && (threshold <=? Z.of_nat count).

Definition record_failure (a : Addr) (st : State) : State :=
  {| failed_login_attempts :=
       <[a := S (attempts st a)]> (failed_login_attempts st);
     credential_checks := credential_checks st |}.

Definition credential_checked (st : State) : State :=
  {| failed_login_attempts := failed_login_attempts st;
     credential_checks := S (credential_checks st) |}.

(** Modelled from the spec: the middleware chain of [.ban], [.auth],
    [.real_ip], [.cors] and [.static] (sections 4.1 and 4.2).  The ban
    tracker rejects a blocked address before anything behind it runs and
    counts the request as a failed attempt when authentication fails; the
    authenticator sets the marker; the others do not touch either. *)
Fixpoint run (mws : App) (req : Request) (authenticated : bool) (st : State)
    : Outcome * State :=
  match mws with
  | [] => (Dispatched authenticated, st)
  | ban_middleware threshold :: rest =>
      if is_banned threshold (attempts st (remote req)) then (Rejected, st)
      else
        let '(o, st') := run rest req authenticated st in
        match o with
        | Dispatched false => (o, record_failure (remote req) st')
        | _ => (o, st')
        end
  | auth_middleware trusted password :: rest =>
      run rest req (validate trusted password req) (credential_checked st)
  | _ :: rest => run rest req authenticated st
  end.

(** One request through the application; the marker starts out unset. *)
Definition process (app : App) (st : State) (req : Request) : Outcome * State :=
  run app req false st.

(** Requests one after the other. *)
Fixpoint serve (app : App) (st : State) (reqs : list Request)
    : list Outcome * State :=
  match reqs with
  | [] => ([], st)
  | req :: reqs' =>
      let '(o, st1) := process app st req in
      let '(os, st2) := serve app st1 reqs' in
      (o :: os, st2)
  end.

(** The failed authentication attempts of address [a] among the requests
    [reqs], whose outcomes were [outs]. *)
Definition failed_attempt_of (a : Addr) (req : Request) (o : Outcome) : bool :=
  match o with
  | Dispatched false => remote req =? a
  | _ => false
  end.

Fixpoint failures (a : Addr) (reqs : list Request) (outs : list Outcome) : nat :=
  match reqs, outs with
  | req :: reqs', o :: outs' =>
      if failed_attempt_of a req o then S (failures a reqs' outs')
      else failures a reqs' outs'
  | _, _ => 0%nat
  end.

(** The ban as a standing block under configuration [cfg]: once the failed
    attempts of an address have reached the threshold, whatever requests
    follow, a request from that address is rejected and nothing else
    happens (no credential check in particular). *)
Definition standing_ban (cfg : Config) : Prop :=
  forall (a : Addr) (earlier later : list Request) (req : Request),
    let app := HomeAssistantHTTP_init cfg in
    login_threshold cfg
      <= Z.of_nat (failures a earlier (fst (serve app initial_state earlier))) ->
    remote req = a ->
    let st := snd (serve app initial_state (earlier ++ later)) in
    process app st req = (Rejected, st).

End Bans.

(** ** Sample values *)

Module Samples.
Import Py.

(** Sample values of the two keys of [.const]. *)
Definition KEY_AUTHENTICATED : string := "ha_authenticated".
Definition KEY_REAL_IP : string := "ha_real_ip".

Definition request_of (running : bool) (marker : option PyVal)
    : Dispatch.Request :=
  {| Dispatch.app := {| Dispatch.app_hass := {| Dispatch.is_running := running |} |};
     Dispatch.items :=
       match marker with
       | Some m => {[ KEY_AUTHENTICATED := m ]}
       | None => ∅
       end;
     Dispatch.path := "/api/states";
     Dispatch.match_info := [] |}.

(** A view with the default [requires_auth = True]. *)
Definition api_view : Dispatch.HomeAssistantView :=
  {| Dispatch.url := Some "/api/states"; Dispatch.extra_urls := [];
     Dispatch.requires_auth := true |}.

(** A handler that returns [v] and leaves the world alone. *)
Definition returning (v : PyVal) : @Dispatch.Handler unit :=
  fun _ _ w => (Return v, w).

Definition st0 : @Dispatch.DState unit :=
  {| Dispatch.world := tt; Dispatch.events := [] |}.

Definition handle := @Dispatch.handle unit KEY_AUTHENTICATED KEY_REAL_IP.
Definition after_call := @Dispatch.after_call unit KEY_AUTHENTICATED KEY_REAL_IP.

(** The text [h], e-acute, euro sign, grinning face, and its encoding. *)
Definition text : pystr := [104; 233; 8364; 128512].
Definition text_utf8 : pybytes :=
  [104; 195; 169; 226; 130; 172; 240; 159; 152; 128].

(** A ready-made response of a handler. *)
Definition teapot : Response :=
  {| body := Some [116]; status := PyInt 418; content_type := Some "text/plain";
     headers := Some [("X-Pot", "tea")]; compression := true |}.

(** A serializer for the three constants of JSON. *)
Definition dumps_constants (sort_keys : bool) (v : PyVal) : Result pystr :=
  match v with
  | PyNone => Return [110; 117; 108; 108]
  | PyBool true => Return [116; 114; 117; 101]
  | PyBool false => Return [102; 97; 108; 115; 101]
  | _ => Raise TypeError
  end.

(** A port that is taken: every bind fails. *)
Definition port_taken : Lifecycle.Env :=
  {| Lifecycle.load_cert_chain := fun c k =>
       Return {| Lifecycle.cert_chain := c; Lifecycle.private_key := k |};
     Lifecycle.create_server := fun _ _ _ _ => Raise (OSError "address in use") |}.

Definition plain_server : Lifecycle.HomeAssistantHTTP :=
  Lifecycle.init None None "0.0.0.0" 8123.

(** A configuration with the password [secret]. *)
Definition with_bans (enabled : bool) (threshold : Z) : Bans.Config :=
  {| Bans.api_password := Some "secret"; Bans.cors_origins := [];
     Bans.use_x_forwarded_for := false; Bans.trusted_networks := [];
     Bans.login_threshold := threshold; Bans.is_ban_enabled := enabled |}.

(** Address 10.0.0.7 with a wrong and with the right password. *)
Definition intruder : Bans.Request :=
  {| Bans.remote := 167772167; Bans.credential := Some "guess" |}.
Definition owner : Bans.Request :=
  {| Bans.remote := 167772167; Bans.credential := Some "secret" |}.

End Samples.

(** ** Registering views, redirects and static paths *)

Module Routing.
Import Py Dispatch.

(** *** The path functions [register_static_path] uses *)

(** The characters of a [str] that holds a path. *)
Definition chars : Type := list Ascii.ascii.

(** [s.rfind(c)]: the index of the last [c] in [s], or [-1]. *)
Fixpoint rfind (c : Ascii.ascii) (s : chars) : Z :=
  match s with
  | [] => -1
  | x :: s' =>
      let r := rfind c s' in
      if r <? 0 then (if Ascii.eqb x c then 0 else -1) else r + 1
  end.

(** [s[i:j]], [s[:i]] and [s[i:]] for indices that are not negative. *)
Definition slice (s : chars) (i j : Z) : chars :=
  take (Z.to_nat j - Z.to_nat i) (drop (Z.to_nat i) s).

(** [os.path.splitext(p)] of [posixpath]: the extension starts at the last
    dot of the last component, unless only dots come before it there. *)
Definition splitext (p : chars) : chars * chars :=
  let sepIndex := rfind "/"%char p in
  let dotIndex := rfind "."%char p in
  if sepIndex <? dotIndex then
    if existsb (fun ch => negb (Ascii.eqb ch "."%char))
               (slice p (sepIndex + 1) dotIndex)
    then (take (Z.to_nat dotIndex) p, drop (Z.to_nat dotIndex) p)
    else (p, [])
  else (p, []).

(** [s.rsplit(sep, 1)] for a separator of one character. *)
Definition rsplit1 (sep : Ascii.ascii) (s : chars) : list chars :=
  let i := rfind sep s in
  if i <? 0 then [s]
  else [take (Z.to_nat i) s; drop (Z.to_nat (i + 1)) s].

(** The two format strings of [register_static_path]. *)
Definition md5_suffix : chars := String.list_ascii_of_string "(-[a-z0-9]{32}|)".
Definition filename_open : chars := String.list_ascii_of_string "/{filename:".
Definition filename_close : chars := String.list_ascii_of_string "}".

(** The [url_pattern] of [register_static_path] for a file. *)
Definition url_pattern_of (url_path : chars) : Result chars :=
  let '(base, ext) := splitext url_path in
  match ext with
  | [] => Return url_path
  | _ :: _ =>
      match rsplit1 "/"%char base with
      | [base; file] =>
          let regex := file ++ md5_suffix ++ ext in
          Return (base ++ filename_open ++ regex ++ filename_close)
      | _ => Raise ValueError
      end
  end.

Definition static_url_pattern (url_path : string) : Result string :=
  rbind (url_pattern_of (String.list_ascii_of_string url_path))
        (fun pattern => Return (String.string_of_list_ascii pattern)).

(** *** The router *)

Section WithWorld.
Context {World : Type}.
Variables KEY_AUTHENTICATED KEY_REAL_IP : string.

(** What a route runs: the closure of [request_handler_factory], the
    [redirect] of [register_redirect], or a [serve_file] of
    [register_static_path] (with [CachingFileResponse] or
    [web.FileResponse]). *)
Inductive RouteHandler : Type :=
| ViewHandler (handle : Request -> @M World Response)
| RedirectTo (redirect_to : string)
| ServeFile (caching : bool) (path : string).

Record Route : Type := {
  route_method : string;
  route_path : string;
  route_handler : RouteHandler
}.

(** [CachingStaticResource(url_path, path)] or
    [web.StaticResource(url_path, path)]. *)
Record Resource : Type := {
  resource_caching : bool;
  resource_prefix : string;
  resource_directory : string
}.

(** [app.router]: the routes and resources added, in order. *)
Record UrlDispatcher : Type := {
  routes : list Route;
  resources : list Resource
}.

(** [router.add_route(method, path, handler)], as the call made: the
    checks aiohttp makes on [path] are the library's. *)
Definition add_route (method path : string) (h : RouteHandler)
    (router : UrlDispatcher) : UrlDispatcher :=
  {| routes := routes router
               ++ [{| route_method := method; route_path := path;
                      route_handler := h |}];
     resources := resources router |}.

Definition register_resource (r : Resource) (router : UrlDispatcher)
    : UrlDispatcher :=
  {| routes := routes router; resources := resources router ++ [r] |}.

(** A method of a view class, and whether it passes
    [asyncio.iscoroutinefunction(handler) or is_callback(handler)]. *)
Record Method : Type := {
  callable : @Handler World;
  is_coroutine_or_callback : bool
}.

(** A view: the class attributes and the methods it defines;
    [getattr(self, method, None)] is [None] for the others. *)
Record View : Type := {
  attrs : HomeAssistantView;
  get : option Method;
  post : option Method;
  delete : option Method;
  put : option Method
}.

(** [for method in ('get', 'post', 'delete', 'put')] with
    [getattr(self, method, None)]. *)
Definition methods (view : View) : list (string * option Method) :=
  [("get", get view); ("post", post view); ("delete", delete view);
   ("put", put view)].

(** [for url in urls: router.add_route(method, url, handler)] *)
Fixpoint add_routes (method : string) (urls : list string) (h : RouteHandler)
    (router : UrlDispatcher) : UrlDispatcher :=
  match urls with
  | [] => router
  | u :: urls' => add_routes method urls' h (add_route method u h router)
  end.

(** The outer loop of [register]. *)
Fixpoint register_methods (view : HomeAssistantView)
    (ms : list (string * option Method)) (urls : list string)
    (router : UrlDispatcher) : Result unit * UrlDispatcher :=
  match ms with
  | [] => (Return tt, router)
  | (_, None) :: ms' => register_methods view ms' urls router
  | (method, Some m) :: ms' =>
      match request_handler_factory KEY_AUTHENTICATED KEY_REAL_IP view
              (is_coroutine_or_callback m) (callable m) with
      | Return handler =>
          register_methods view ms' urls
            (add_routes method urls (ViewHandler handler) router)
      | Raise e => (Raise e, router)
      end
  end.

(** [HomeAssistantView.register] *)
Definition register (view : View) (router : UrlDispatcher)
    : Result unit * UrlDispatcher :=
  match url (attrs view) with
  | None => (Raise AssertionError, router)
  | Some u =>
      register_methods (attrs view) (methods view)
        (u :: extra_urls (attrs view)) router
  end.

(** The routes of one method under the given URLs, and of a list of
    methods: those [register] is to add. *)
Definition routes_of_method (view : HomeAssistantView) (urls : list string)
    (m : string * option Method) : list Route :=
  match snd m with
  | None => []
  | Some h =>
      map (fun u =>
             {| route_method := fst m; route_path := u;
                route_handler :=
                  ViewHandler (handle KEY_AUTHENTICATED KEY_REAL_IP view
                                 (callable h)) |}) urls
  end.

Definition routes_of (view : HomeAssistantView) (urls : list string)
    (ms : list (string * option Method)) : list Route :=
  flat_map (routes_of_method view urls) ms.

(** A method [request_handler_factory] accepts, or none at all. *)
Definition acceptable (m : string * option Method) : bool :=
  match snd m with
  | None => true
  | Some h => is_coroutine_or_callback h
  end.

(** The methods before the first one that is not acceptable. *)
Fixpoint acceptable_prefix (ms : list (string * option Method))
    : list (string * option Method) :=
  match ms with
  | [] => []
  | m :: ms' => if acceptable m then m :: acceptable_prefix ms' else []
  end.

(** How many of the four methods a view defines. *)
Definition defined_methods (view : View) : nat :=
  length (filter (fun m => is_Some (snd m)) (methods view)).

(** The argument of [register_view]: what [hasattr] says of [url] and
    [name], the name of the class, and the view itself. *)
Record ViewObject : Type := {
  class_name : string;
  has_url : bool;
  has_name : bool;
  the_view : View
}.

(** A view class, given by what calling it without arguments gives (the
    instance, or the exception its constructor raises), or an instance. *)
Inductive ViewArgument : Type :=
| ViewClass (instantiate : Result ViewObject)
| ViewInstance (view : ViewObject).

Inductive Registration : Type :=
| Registered
| AttributeError (class_name : string) (attribute : string)
| Failed (e : Exception).

(** [HomeAssistantHTTP.register_view] *)
Definition register_view (view : ViewArgument) (router : UrlDispatcher)
    : Registration * UrlDispatcher :=
  match (match view with
         | ViewClass instantiate => instantiate
         | ViewInstance v => Return v
         end) with
  | Raise e => (Failed e, router)
  | Return view =>
      if negb (has_url view) then
        (AttributeError (class_name view) "url", router)
      else if negb (has_name view) then
        (AttributeError (class_name view) "name", router)
      else
        match register (the_view view) router with
        | (Return _, router') => (Registered, router')
        | (Raise e, router') => (Failed e, router')
        end
  end.

(** [HomeAssistantHTTP.register_redirect] *)
Definition register_redirect (url redirect_to : string)
    (router : UrlDispatcher) : UrlDispatcher :=
  add_route "GET" url (RedirectTo redirect_to) router.

(** [HomeAssistantHTTP.register_static_path]; [isdir] is
    [os.path.isdir]. *)
Definition register_static_path (isdir : string -> bool)
    (url_path path : string) (cache_headers : bool) (router : UrlDispatcher)
    : Result unit * UrlDispatcher :=
  if isdir path then
    (Return tt,
     register_resource {| resource_caching := cache_headers;
                          resource_prefix := url_path;
                          resource_directory := path |} router)
  else
    match static_url_pattern url_path with
    | Return url_pattern =>
        (Return tt,
         add_route "GET" url_pattern (ServeFile cache_headers path) router)
    | Raise e => (Raise e, router)
    end.

(** What a client gets from a route. *)
Inductive Served : Type :=
| Answer (r : Result Response)
| MovedPermanently (location : string)
| FileResponse (caching : bool) (path : string).

(** Running the handler of a route on a request. *)
Definition serve_route (h : RouteHandler) (request : Request)
    : @DState World -> Served * @DState World :=
  fun st =>
    match h with
    | ViewHandler handle => let '(r, st') := handle request st in (Answer r, st')
    | RedirectTo redirect_to => (MovedPermanently redirect_to, st)
    | ServeFile caching path => (FileResponse caching path, st)
    end.

End WithWorld.

End Routing.

(** ** Stopping the server *)

Module Shutdown.
Import Py Lifecycle.

(** What [stop] awaits, in the order it does. *)
Inductive StopStep : Type :=
| ServerClosed
| ServerWaitClosed
| AppShutdown
| HandlerShutdown (timeout : Z)
| AppCleanup.

(** [HomeAssistantHTTP.stop]; it leaves the fields of [self] as they are. *)
Definition stop (self : HomeAssistantHTTP) : list StopStep :=
  (match server self with
   | Some _ => [ServerClosed; ServerWaitClosed]
   | None => []
   end)
  ++ [AppShutdown]
  ++ (match _handler self with
      | Some _ => [HandlerShutdown 10]
      | None => []
      end)
  ++ [AppCleanup].

End Shutdown.

(** ** Setting the component up *)

Module Setup.
Import Py.

Definition DEFAULT_SERVER_HOST : string := "0.0.0.0".

(** The [http] section of the configuration after [HTTP_SCHEMA]: the keys
    with a default are always there, the others may be missing. *)
Record Conf : Type := {
  conf_api_password : option string;
  conf_server_host : string;
  conf_server_port : Z;
  conf_base_url : option string;
  conf_ssl_certificate : option string;
  conf_ssl_key : option string;
  conf_cors_origins : list string;
  conf_use_x_forwarded_for : bool;
  conf_trusted_networks : list Bans.IPNetwork;
  conf_login_threshold : Z;
  conf_ip_ban_enabled : bool
}.

(** [rem.API(host, api_password, port, use_ssl)] *)
Record API : Type := {
  api_host : string;
  api_password : option string;
  api_port : option Z;
  api_use_ssl : bool
}.

(** The two events of the bus the component listens to, and its two
    listeners, the functions [start_server] and [stop_server] nested in
    [async_setup]. *)
Inductive BusEvent : Type :=
| EVENT_HOMEASSISTANT_START
| EVENT_HOMEASSISTANT_STOP.

Inductive Listener : Type :=
| StartServer
| StopServer.

(** The calls of [hass.bus.async_listen_once] made so far. *)
Definition Listening : Type := list (BusEvent * Listener).

(** What [async_setup] leaves behind: the server in [hass.http], its
    application, the API in [hass.config.api], the password, if any,
    hidden from the access log, the listeners registered, and the value
    returned. *)
Record SetupResult : Type := {
  http_server : Lifecycle.HomeAssistantHTTP;
  http_app : Bans.App;
  config_api : API;
  hidden_in_access_log : option string;
  listening : Listening;
  returned : bool
}.

(** [start_server(event)]: it registers [stop_server], then starts the
    server. *)
Definition start_server (env : Lifecycle.Env) (registered : Listening)
    (server : Lifecycle.HomeAssistantHTTP)
    : Result unit * Listening * Lifecycle.HomeAssistantHTTP :=
  let registered := registered ++ [(EVENT_HOMEASSISTANT_STOP, StopServer)] in
  let '(r, server') := Lifecycle.start env server in
  (r, registered, server').

(** [stop_server(event)] *)
Definition stop_server (server : Lifecycle.HomeAssistantHTTP)
    : list Shutdown.StopStep :=
  Shutdown.stop server.

Section WithConstants.
(** [homeassistant.const.SERVER_PORT] and the address
    [hass_util.get_local_ip()] finds. *)
Variable SERVER_PORT : Z.
Variable local_ip : string.

(** [HTTP_SCHEMA({})] *)
Definition HTTP_SCHEMA_defaults : Conf :=
  {| conf_api_password := None;
     conf_server_host := DEFAULT_SERVER_HOST;
     conf_server_port := SERVER_PORT;
     conf_base_url := None;
     conf_ssl_certificate := None;
     conf_ssl_key := None;
     conf_cors_origins := [];
     conf_use_x_forwarded_for := false;
     conf_trusted_networks := [];
     conf_login_threshold := Bans.NO_LOGIN_ATTEMPT_THRESHOLD;
     conf_ip_ban_enabled := true |}.

(** The arguments [HomeAssistantHTTP] gets from [conf]. *)
Definition server_config (conf : Conf) : Bans.Config :=
  {| Bans.api_password := conf_api_password conf;
     Bans.cors_origins := conf_cors_origins conf;
     Bans.use_x_forwarded_for := conf_use_x_forwarded_for conf;
     Bans.trusted_networks := conf_trusted_networks conf;
     Bans.login_threshold := conf_login_threshold conf;
     Bans.is_ban_enabled := conf_ip_ban_enabled conf |}.

(** The host and the port [async_setup] gives to the API. *)
Definition api_address (conf : Conf) : string * option Z :=
  match conf_base_url conf with
  | Some host =>
      if negb (String.eqb host "") then (host, None)
      else if negb (String.eqb (conf_server_host conf) DEFAULT_SERVER_HOST)
      then (conf_server_host conf, Some (conf_server_port conf))
      else (local_ip, Some (conf_server_port conf))
  | None =>
      if negb (String.eqb (conf_server_host conf) DEFAULT_SERVER_HOST)
      then (conf_server_host conf, Some (conf_server_port conf))
      else (local_ip, Some (conf_server_port conf))
  end.

(** [async_setup(hass, config)], with [config.get(DOMAIN)] as [conf]. *)
Definition async_setup (conf : option Conf) : SetupResult :=
  let conf := match conf with
              | Some conf => conf
              | None => HTTP_SCHEMA_defaults
              end in
  let '(host, port) := api_address conf in
  {| http_server :=
       Lifecycle.init (conf_ssl_certificate conf) (conf_ssl_key conf)
         (conf_server_host conf) (conf_server_port conf);
     http_app := Bans.HomeAssistantHTTP_init (server_config conf);
     config_api :=
       {| api_host := host;
          api_password := conf_api_password conf;
          api_port := port;
          api_use_ssl := match conf_ssl_certificate conf with
                         | Some _ => true
                         | None => false
                         end |};
     hidden_in_access_log := conf_api_password conf;
     listening := [(EVENT_HOMEASSISTANT_START, StartServer)];
     returned := true |}.

End WithConstants.

End Setup.

(** ** More of the dispatcher's vocabulary *)

Module Outcomes.
Import Py Dispatch.

(** [admitted] as a test. *)
Definition admittedb (KEY_AUTHENTICATED : string) (view : HomeAssistantView)
    (request : Request) : bool :=
  is_running (app_hass (app request))
  && (negb (requires_auth view)
      || truthy (authenticated_of KEY_AUTHENTICATED request)).

(** The text [handle] encodes for a result: the string itself, or the
    string in front of a pair; nothing otherwise. *)
Definition text_of (v : PyVal) : pystr :=
  match v with
  | PyStr s => s
  | PyTuple [PyStr s; _] => s
  | _ => []
  end.

(** The exceptions the code of [handle] raises by itself. *)
Definition raised_by_handle (e : Exception) : bool :=
  match e with
  | HTTPUnauthorized | AssertionError | ValueError | UnicodeEncodeError => true
  | _ => false
  end.

(** The status the response is built with is an integer: it is 200 for a
    bare result, and the second component of a pair otherwise.  (With any
    other status the response constructor of the library, which this file
    does not hold, is left to accept or refuse it.) *)
Definition int_status (v : PyVal) : bool :=
  match v with
  | PyTuple [_; PyInt _] => true
  | PyTuple [_; _] => false
  | _ => true
  end.

End Outcomes.

(** ** More sample values *)

Module MoreSamples.
Import Py Samples.

(** A view with two URLs and the methods [get] and [post]. *)
Definition states_view : @Routing.View unit :=
  {| Routing.attrs :=
       {| Dispatch.url := Some "/api/states";
          Dispatch.extra_urls := ["/api/states/all"];
          Dispatch.requires_auth := true |};
     Routing.get := Some {| Routing.callable := returning PyNone;
                            Routing.is_coroutine_or_callback := true |};
     Routing.post := Some {| Routing.callable := returning (PyInt 42);
                             Routing.is_coroutine_or_callback := true |};
     Routing.delete := None;
     Routing.put := None |}.

Definition no_routes : @Routing.UrlDispatcher unit :=
  {| Routing.routes := []; Routing.resources := [] |}.

Definition register :=
  @Routing.register unit KEY_AUTHENTICATED KEY_REAL_IP.

(** A file system without directories. *)
Definition only_files : string -> bool := fun _ => false.

(** A free port, a certificate that cannot be read, an event loop that is
    closed. *)
Definition bound : Lifecycle.Server :=
  {| Lifecycle.bound_host := "0.0.0.0"; Lifecycle.bound_port := 8123;
     Lifecycle.tls := None |}.

Definition port_free : Lifecycle.Env :=
  {| Lifecycle.load_cert_chain := fun c k =>
       Return {| Lifecycle.cert_chain := c; Lifecycle.private_key := k |};
     Lifecycle.create_server := fun _ _ _ _ => Return bound |}.

Definition certificate_unreadable : Lifecycle.Env :=
  {| Lifecycle.load_cert_chain := fun _ _ => Raise (OSError "no such file");
     Lifecycle.create_server := fun _ _ _ _ => Return bound |}.

Definition loop_closed : Lifecycle.Env :=
  {| Lifecycle.load_cert_chain := fun c k =>
       Return {| Lifecycle.cert_chain := c; Lifecycle.private_key := k |};
     Lifecycle.create_server := fun _ _ _ _ => Raise (OtherError "RuntimeError") |}.

(** A string that ends in a lone surrogate, [U+D800]. *)
Definition lone_surrogate : pystr := [104; 55296].

Definition tls_server : Lifecycle.HomeAssistantHTTP :=
  Lifecycle.init (Some "/ssl/fullchain.pem") (Some "/ssl/privkey.pem")
    "0.0.0.0" 8123.

End MoreSamples.

(** * Properties *)

(** ** UTF-8 encoding *)

Section Encoding.
Import Py.

Lemma encode_code_point_encodable c :
  encodable c = true -> exists bs, encode_code_point c = Return bs.
Proof.
  unfold encodable, encode_code_point. intros H.
  apply andb_prop in H as [H Hs]. apply andb_prop in H as [H0 H1].
  apply Z.leb_le in H0. apply Z.ltb_lt in H1.
  apply negb_true_iff in Hs. rewrite Hs.
  destruct (Z.ltb_spec c 0); [lia|].
  destruct (Z.ltb_spec c 128); [eexists; reflexivity|].
  destruct (Z.ltb_spec c 2048); [eexists; reflexivity|].
  destruct (Z.ltb_spec c 65536); [eexists; reflexivity|].
  destruct (Z.ltb_spec c 1114112); [eexists; reflexivity|lia].
Qed.

(** A lone surrogate has no encoding: Python raises. *)
Lemma encode_code_point_surrogate c :
  is_surrogate c = true -> encode_code_point c = Raise UnicodeEncodeError.
Proof.
  unfold encode_code_point. intros H. rewrite H.
  unfold is_surrogate in H.
  apply andb_prop in H as [H0 H1]. apply Z.leb_le in H0. apply Z.leb_le in H1.
  destruct (Z.ltb_spec c 0); [lia|].
  destruct (Z.ltb_spec c 128); [lia|].
  destruct (Z.ltb_spec c 2048); [lia|].
  destruct (Z.ltb_spec c 65536); [reflexivity|lia].
Qed.

(** Every string of Unicode scalar values has an encoding. *)
Lemma str_encode_encodable s :
  forallb encodable s = true -> exists bs, str_encode s = Return bs.
Proof.
  induction s as [|c s IH]; simpl; intros H.
  - eexists; reflexivity.
  - apply andb_prop in H as [Hc Hs].
    destruct (encode_code_point_encodable c Hc) as [bs ->].
    destruct (IH Hs) as [bs' ->]. eexists; reflexivity.
Qed.

(** ASCII text is its own encoding. *)
Lemma str_encode_ascii s :
  forallb (fun c => (0 <=? c) && (c <? 128)) s = true ->
  str_encode s = Return s.
Proof.
  induction s as [|c s IH]; simpl; intros H; [reflexivity|].
  apply andb_prop in H as [Hc Hs]. apply andb_prop in Hc as [H0 H1].
  apply Z.leb_le in H0. apply Z.ltb_lt in H1.
  unfold encode_code_point.
  destruct (Z.ltb_spec c 0); [lia|].
  destruct (Z.ltb_spec c 128); [|lia].
  simpl. rewrite (IH Hs). reflexivity.
Qed.

Lemma str_encode_app s1 s2 b1 b2 :
  str_encode s1 = Return b1 -> str_encode s2 = Return b2 ->
  str_encode (s1 ++ s2) = Return (b1 ++ b2).
Proof.
  revert b1. induction s1 as [|c s1 IH]; simpl; intros b1 H1 H2.
  - injection H1 as <-. exact H2.
  - destruct (encode_code_point c) as [bc|]; simpl in *; [|discriminate].
    destruct (str_encode s1) as [b1'|]; simpl in *; [|discriminate].
    injection H1 as <-. rewrite (IH b1' eq_refl H2). simpl.
    rewrite <- app_assoc. reflexivity.
Qed.

(** Bit operations as arithmetic. *)
Lemma lor_shiftl_small x k b :
  0 <= k -> 0 <= b < 2 ^ k -> Z.lor (Z.shiftl x k) b = x * 2 ^ k + b.
Proof.
  intros Hk Hb. rewrite <- Z.shiftl_mul_pow2 by exact Hk.
  symmetry. apply Z.add_nocarry_lor.
  apply Z.bits_inj'. intros i Hi. rewrite Z.land_spec, Z.bits_0.
  destruct (Z.lt_ge_cases i k) as [Hlt|Hge].
  - rewrite Z.shiftl_spec_low by exact Hlt. reflexivity.
  - rewrite <- (Z.mod_small b (2 ^ k)) by exact Hb.
    rewrite Z.mod_pow2_bits_high by lia. apply andb_false_r.
Qed.

Lemma land_low_bits a n : 0 <= n -> Z.land a (Z.ones n) = a mod 2 ^ n.
Proof. intros Hn. apply Z.land_ones, Hn. Qed.

Lemma cont_byte_eq c k :
  0 <= k -> cont_byte c k = 128 + (c / 2 ^ (6 * k)) mod 64.
Proof.
  intros Hk. unfold cont_byte.
  change 0x80 with (Z.shiftl 2 6). change 0x3F with (Z.ones 6).
  rewrite land_low_bits by lia. rewrite Z.shiftr_div_pow2 by lia.
  rewrite lor_shiftl_small; [reflexivity | lia |].
  apply Z.mod_pos_bound. reflexivity.
Qed.

Lemma payload_cont y : 0 <= y < 64 -> payload (128 + y) = y.
Proof.
  intros Hy. unfold payload. change 0x3F with (Z.ones 6).
  rewrite land_low_bits by lia. change (2 ^ 6) with 64.
  Z.div_mod_to_equations. lia.
Qed.

Lemma is_continuation_cont y : 0 <= y < 64 -> is_continuation (128 + y) = true.
Proof.
  intros Hy. unfold is_continuation. apply andb_true_intro.
  split; [apply Z.leb_le | apply Z.ltb_lt]; lia.
Qed.

(** The three shapes of a multi-octet encoding, in arithmetic. *)
Lemma encode_two_octets c :
  128 <= c < 2048 ->
  encode_code_point c = Return [192 + c / 64; 128 + c mod 64].
Proof.
  intros Hc. unfold encode_code_point.
  destruct (Z.ltb_spec c 0); [lia|].
  destruct (Z.ltb_spec c 128); [lia|].
  destruct (Z.ltb_spec c 2048); [|lia].
  rewrite cont_byte_eq by lia. change (2 ^ (6 * 0)) with 1. rewrite Z.div_1_r.
  change 0xC0 with (Z.shiftl 3 6). rewrite Z.shiftr_div_pow2 by lia.
  change (2 ^ 6) with 64.
  rewrite lor_shiftl_small; [reflexivity | lia |].
  change (2 ^ 6) with 64. Z.div_mod_to_equations. lia.
Qed.

Lemma encode_three_octets c :
  2048 <= c < 65536 -> is_surrogate c = false ->
  encode_code_point c
  = Return [224 + c / 4096; 128 + (c / 64) mod 64; 128 + c mod 64].
Proof.
  intros Hc Hs. unfold encode_code_point. rewrite Hs.
  destruct (Z.ltb_spec c 0); [lia|].
  destruct (Z.ltb_spec c 128); [lia|].
  destruct (Z.ltb_spec c 2048); [lia|].
  destruct (Z.ltb_spec c 65536); [|lia].
  rewrite !cont_byte_eq by lia.
  change (2 ^ (6 * 0)) with 1. change (2 ^ (6 * 1)) with 64. rewrite Z.div_1_r.
  change 0xE0 with (Z.shiftl 14 4). rewrite Z.shiftr_div_pow2 by lia.
  change (2 ^ 12) with 4096.
  rewrite lor_shiftl_small; [reflexivity | lia |].
  change (2 ^ 4) with 16. Z.div_mod_to_equations. lia.
Qed.

Lemma encode_four_octets c :
  65536 <= c < 1114112 ->
  encode_code_point c
  = Return [240 + c / 262144; 128 + (c / 4096) mod 64;
            128 + (c / 64) mod 64; 128 + c mod 64].
Proof.
  intros Hc. unfold encode_code_point.
  destruct (Z.ltb_spec c 0); [lia|].
  destruct (Z.ltb_spec c 128); [lia|].
  destruct (Z.ltb_spec c 2048); [lia|].
  destruct (Z.ltb_spec c 65536); [lia|].
  destruct (Z.ltb_spec c 1114112); [|lia].
  rewrite !cont_byte_eq by lia.
  change (2 ^ (6 * 0)) with 1. change (2 ^ (6 * 1)) with 64.
  change (2 ^ (6 * 2)) with 4096. rewrite Z.div_1_r.
  change 0xF0 with (Z.shiftl 30 3). rewrite Z.shiftr_div_pow2 by lia.
  change (2 ^ 18) with 262144.
  rewrite lor_shiftl_small; [reflexivity | lia |].
  change (2 ^ 3) with 8. Z.div_mod_to_equations. lia.
Qed.

Lemma lead_bits t n x :
  0 <= n -> 0 <= x < 2 ^ n -> Z.land (t * 2 ^ n + x) (Z.ones n) = x.
Proof.
  intros Hn Hx. rewrite land_low_bits by exact Hn.
  rewrite Z.add_comm, Z.mod_add by lia. apply Z.mod_small, Hx.
Qed.

Lemma decode_two_octets x y rest :
  2 <= x < 32 -> 0 <= y < 64 ->
  decode_code_point (192 + x :: 128 + y :: rest) = Some (64 * x + y, rest).
Proof.
  intros Hx Hy. unfold decode_code_point.
  destruct (Z.ltb_spec (192 + x) 0); [lia|].
  destruct (Z.ltb_spec (192 + x) 128); [lia|].
  destruct (Z.ltb_spec (192 + x) 192); [lia|].
  destruct (Z.ltb_spec (192 + x) 224); [|lia].
  cbv zeta. rewrite is_continuation_cont, payload_cont by exact Hy.
  change 0x1F with (Z.ones 5). change 192 with (6 * 2 ^ 5).
  rewrite lead_bits by lia.
  rewrite lor_shiftl_small by lia. change (2 ^ 6) with 64.
  destruct (Z.ltb_spec (x * 64 + y) 128); [lia|].
  simpl. f_equal. f_equal. lia.
Qed.

Lemma decode_three_octets x y z rest :
  0 <= x < 16 -> 0 <= y < 64 -> 0 <= z < 64 ->
  2048 <= 4096 * x + 64 * y + z ->
  is_surrogate (4096 * x + 64 * y + z) = false ->
  decode_code_point (224 + x :: 128 + y :: 128 + z :: rest)
  = Some (4096 * x + 64 * y + z, rest).
Proof.
  intros Hx Hy Hz Hlow Hs. unfold decode_code_point.
  destruct (Z.ltb_spec (224 + x) 0); [lia|].
  destruct (Z.ltb_spec (224 + x) 128); [lia|].
  destruct (Z.ltb_spec (224 + x) 192); [lia|].
  destruct (Z.ltb_spec (224 + x) 224); [lia|].
  destruct (Z.ltb_spec (224 + x) 240); [|lia].
  cbv zeta. rewrite !is_continuation_cont, !payload_cont by assumption.
  change 0x0F with (Z.ones 4). change 224 with (14 * 2 ^ 4).
  rewrite lead_bits by lia.
  rewrite (lor_shiftl_small y 6 z) by lia.
  rewrite lor_shiftl_small by (change (2 ^ 6) with 64; change (2 ^ 12) with 4096; lia).
  change (2 ^ 6) with 64. change (2 ^ 12) with 4096.
  replace (x * 4096 + (y * 64 + z)) with (4096 * x + 64 * y + z) by lia.
  rewrite Hs. destruct (Z.ltb_spec (4096 * x + 64 * y + z) 2048); [lia|].
  reflexivity.
Qed.

Lemma decode_four_octets x y z w rest :
  0 <= x < 8 -> 0 <= y < 64 -> 0 <= z < 64 -> 0 <= w < 64 ->
  65536 <= 262144 * x + 4096 * y + 64 * z + w < 1114112 ->
  decode_code_point (240 + x :: 128 + y :: 128 + z :: 128 + w :: rest)
  = Some (262144 * x + 4096 * y + 64 * z + w, rest).
Proof.
  intros Hx Hy Hz Hw Hc. unfold decode_code_point.
  destruct (Z.ltb_spec (240 + x) 0); [lia|].
  destruct (Z.ltb_spec (240 + x) 128); [lia|].
  destruct (Z.ltb_spec (240 + x) 192); [lia|].
  destruct (Z.ltb_spec (240 + x) 224); [lia|].
  destruct (Z.ltb_spec (240 + x) 240); [lia|].
  destruct (Z.ltb_spec (240 + x) 248); [|lia].
  cbv zeta. rewrite !is_continuation_cont, !payload_cont by assumption.
  change 0x07 with (Z.ones 3). change 240 with (30 * 2 ^ 3).
  rewrite lead_bits by lia.
  rewrite (lor_shiftl_small z 6 w) by lia.
  rewrite (lor_shiftl_small y 12)
    by (change (2 ^ 6) with 64; change (2 ^ 12) with 4096; lia).
  rewrite lor_shiftl_small
    by (change (2 ^ 6) with 64; change (2 ^ 12) with 4096;
        change (2 ^ 18) with 262144; lia).
  change (2 ^ 6) with 64. change (2 ^ 12) with 4096.
  change (2 ^ 18) with 262144.
  replace (x * 262144 + (y * 4096 + (z * 64 + w)))
    with (262144 * x + 4096 * y + 64 * z + w) by lia.
  destruct (Z.ltb_spec (262144 * x + 4096 * y + 64 * z + w) 65536); [lia|].
  destruct (Z.ltb_spec (262144 * x + 4096 * y + 64 * z + w) 1114112); [|lia].
  reflexivity.
Qed.

(** The encoding of a character is made of one to four octets, and it
    decodes to the character, leaving what follows it. *)
Lemma encode_code_point_decode c bs rest :
  encode_code_point c = Return bs ->
  decode_code_point (bs ++ rest) = Some (c, rest)
  /\ forallb is_octet bs = true /\ (0 < length bs)%nat.
Proof.
  intros He.
  destruct (Z.lt_ge_cases c 0) as [Hneg|Hpos].
  { unfold encode_code_point in He. apply Z.ltb_lt in Hneg.
    rewrite Hneg in He. discriminate. }
  destruct (Z.lt_ge_cases c 128) as [H1|H1].
  { unfold encode_code_point in He.
    destruct (Z.ltb_spec c 0); [lia|]. destruct (Z.ltb_spec c 128); [|lia].
    injection He as <-. simpl. unfold is_octet.
    destruct (Z.ltb_spec c 0); [lia|]. destruct (Z.ltb_spec c 128); [|lia].
    destruct (Z.leb_spec 0 c); [|lia]. destruct (Z.ltb_spec c 256); [|lia].
    repeat split. lia. }
  destruct (Z.lt_ge_cases c 2048) as [H2|H2].
  { rewrite encode_two_octets in He by lia. injection He as <-.
    assert (c = 64 * (c / 64) + c mod 64) as Hc by (apply Z.div_mod; lia).
    assert (0 <= c mod 64 < 64) by (apply Z.mod_pos_bound; lia).
    simpl app. rewrite decode_two_octets by lia. rewrite <- Hc.
    repeat split; [|simpl; lia].
    simpl. unfold is_octet.
    repeat (apply andb_true_intro; split);
      try apply Z.leb_le; try apply Z.ltb_lt; try reflexivity; lia. }
  assert (c = 64 * (c / 64) + c mod 64) as Hc by (apply Z.div_mod; lia).
  assert (c / 64 = 64 * (c / 64 / 64) + (c / 64) mod 64) as Hc1
    by (apply Z.div_mod; lia).
  assert (0 <= c mod 64 < 64) by (apply Z.mod_pos_bound; lia).
  assert (0 <= (c / 64) mod 64 < 64) by (apply Z.mod_pos_bound; lia).
  assert (c / 4096 = c / 64 / 64) as Hd1
    by (rewrite Z.div_div by lia; reflexivity).
  destruct (Z.lt_ge_cases c 65536) as [H3|H3].
  { destruct (is_surrogate c) eqn:Hs.
    - rewrite encode_code_point_surrogate in He by exact Hs. discriminate.
    - rewrite encode_three_octets in He by (try exact Hs; lia).
      injection He as <-.
      assert (c = 4096 * (c / 4096) + 64 * ((c / 64) mod 64) + c mod 64)
        as Hc3 by lia.
      simpl app. rewrite decode_three_octets; try lia.
      + rewrite <- Hc3. repeat split; [|simpl; lia].
        simpl. unfold is_octet.
        repeat (apply andb_true_intro; split);
          try apply Z.leb_le; try apply Z.ltb_lt; try reflexivity; lia.
      + rewrite <- Hc3. exact Hs. }
  destruct (Z.lt_ge_cases c 1114112) as [H4|H4].
  { rewrite encode_four_octets in He by lia. injection He as <-.
    assert (c / 4096 = 64 * (c / 4096 / 64) + (c / 4096) mod 64) as Hc2
      by (apply Z.div_mod; lia).
    assert (0 <= (c / 4096) mod 64 < 64) by (apply Z.mod_pos_bound; lia).
    assert (c / 262144 = c / 4096 / 64) as Hd2
      by (rewrite Z.div_div by lia; reflexivity).
    assert (c = 262144 * (c / 262144) + 4096 * ((c / 4096) mod 64)
                + 64 * ((c / 64) mod 64) + c mod 64) as Hc4 by lia.
    simpl app. rewrite decode_four_octets; try lia.
    rewrite <- Hc4. repeat split; [|simpl; lia].
    simpl. unfold is_octet.
    repeat (apply andb_true_intro; split);
      try apply Z.leb_le; try apply Z.ltb_lt; try reflexivity; lia. }
  unfold encode_code_point in He.
  destruct (Z.ltb_spec c 0); [lia|]. destruct (Z.ltb_spec c 128); [lia|].
  destruct (Z.ltb_spec c 2048); [lia|]. destruct (Z.ltb_spec c 65536); [lia|].
  destruct (Z.ltb_spec c 1114112); [lia|discriminate].
Qed.

(** The encoding is made of octets. *)
Lemma str_encode_octets s bs :
  str_encode s = Return bs -> forallb is_octet bs = true.
Proof.
  revert bs. induction s as [|c s IH]; simpl; intros bs H.
  - injection H as <-. reflexivity.
  - destruct (encode_code_point c) as [bc|] eqn:Hc; simpl in H; [|discriminate].
    destruct (str_encode s) as [bs'|]; simpl in H; [|discriminate].
    injection H as <-. rewrite forallb_app.
    destruct (encode_code_point_decode c bc [] Hc) as (_ & -> & _).
    rewrite (IH bs' eq_refl). reflexivity.
Qed.

Lemma decode_from_encode s :
  forall bs fuel,
    str_encode s = Return bs -> (length bs <= fuel)%nat ->
    decode_from fuel bs = Some s.
Proof.
  induction s as [|c s IH]; simpl; intros bs fuel H Hfuel.
  - injection H as <-. destruct fuel; reflexivity.
  - destruct (encode_code_point c) as [bc|] eqn:Hc; simpl in H; [|discriminate].
    destruct (str_encode s) as [bs'|] eqn:Hs; simpl in H; [|discriminate].
    injection H as <-.
    destruct (encode_code_point_decode c bc bs' Hc) as (Hd & _ & Hlen).
    rewrite length_app in Hfuel.
    destruct (bc ++ bs') as [|b l] eqn:Happ.
    + apply (f_equal (@length Z)) in Happ. rewrite length_app in Happ.
      simpl in Happ. lia.
    + destruct fuel as [|fuel]; [lia|].
      cbn [decode_from]. rewrite Hd.
      rewrite (IH bs' fuel eq_refl); [reflexivity | lia].
Qed.

(** Decoding gives the string back: the encoding loses nothing. *)
Lemma bytes_decode_str_encode s bs :
  str_encode s = Return bs -> bytes_decode bs = Some s.
Proof.
  intros H. unfold bytes_decode. apply (decode_from_encode s bs _ H). lia.
Qed.

(** The only exception of the encoder. *)
Lemma encode_code_point_raises c e :
  encode_code_point c = Raise e -> e = UnicodeEncodeError.
Proof.
  unfold encode_code_point.
  repeat match goal with
         | |- context [if ?b then _ else _] => destruct b
         end; congruence.
Qed.

Lemma str_encode_raises s e :
  str_encode s = Raise e -> e = UnicodeEncodeError.
Proof.
  induction s as [|c s IH]; simpl; [discriminate|].
  destruct (encode_code_point c) as [bc|e'] eqn:Hc; simpl.
  - destruct (str_encode s) as [bs|e'']; simpl; [discriminate|].
    intros [= <-]. apply IH. reflexivity.
  - intros [= <-]. eapply encode_code_point_raises, Hc.
Qed.

(** An encoding exists only for Unicode scalar values. *)
Lemma encode_code_point_return c bs :
  encode_code_point c = Return bs -> encodable c = true.
Proof.
  unfold encode_code_point, encodable.
  destruct (Z.ltb_spec c 0); [discriminate|].
  destruct (Z.leb_spec 0 c); [|lia].
  destruct (Z.ltb_spec c 128).
  { intros _. destruct (Z.ltb_spec c 1114112); [|lia].
    unfold is_surrogate. destruct (Z.leb_spec 55296 c); [lia|]. reflexivity. }
  destruct (Z.ltb_spec c 2048).
  { intros _. destruct (Z.ltb_spec c 1114112); [|lia].
    unfold is_surrogate. destruct (Z.leb_spec 55296 c); [lia|]. reflexivity. }
  destruct (Z.ltb_spec c 65536).
  { destruct (is_surrogate c); [discriminate|]. intros _.
    destruct (Z.ltb_spec c 1114112); [reflexivity|lia]. }
  destruct (Z.ltb_spec c 1114112); [|discriminate].
  intros _. unfold is_surrogate.
  destruct (Z.leb_spec 55296 c); [|lia].
  destruct (Z.leb_spec c 57343); [lia|]. reflexivity.
Qed.

Lemma str_encode_return_iff s :
  (exists bs, str_encode s = Return bs) <-> forallb encodable s = true.
Proof.
  split; [|apply str_encode_encodable].
  induction s as [|c s IH]; simpl; [reflexivity|].
  intros [bs H].
  destruct (encode_code_point c) as [bc|] eqn:Hc; simpl in H; [|discriminate].
  destruct (str_encode s) as [bs'|]; simpl in H; [|discriminate].
  rewrite (encode_code_point_return c bc Hc). simpl. apply IH.
  eexists; reflexivity.
Qed.

Lemma str_encode_raise_iff s :
  str_encode s = Raise UnicodeEncodeError <-> forallb encodable s = false.
Proof.
  split.
  - intros H. destruct (forallb encodable s) eqn:He; [|reflexivity].
    apply str_encode_encodable in He as [bs Hbs]. congruence.
  - intros H. destruct (str_encode s) as [bs|e] eqn:He.
    + assert (forallb encodable s = true)
        by (apply str_encode_return_iff; eexists; exact He).
      congruence.
    + apply str_encode_raises in He as ->. reflexivity.
Qed.

End Encoding.

(** ** The dispatcher *)

Section DispatcherFacts.
Import Py Dispatch.
Context {World : Type}.
Variables KEY_AUTHENTICATED KEY_REAL_IP : string.

Local Abbreviation handle := (@Dispatch.handle World KEY_AUTHENTICATED KEY_REAL_IP).
Local Abbreviation authenticated_of := (Dispatch.authenticated_of KEY_AUTHENTICATED).
Local Abbreviation after_call :=
  (@Dispatch.after_call World KEY_AUTHENTICATED KEY_REAL_IP).
Local Abbreviation admitted := (Dispatch.admitted KEY_AUTHENTICATED).

Implicit Types (view : HomeAssistantView) (handler : @Handler World)
  (request : Request) (st : @DState World).

(** Past the guards, [handle] logs, calls the handler once and turns its
    value into the response. *)
Lemma handle_admitted view handler request st r w :
  admitted view request ->
  handler request (match_info request) (world st) = (r, w) ->
  handle view handler request st = (rbind r respond, after_call request w st).
Proof.
  intros [Hrun Hauth] Hh. unfold Dispatch.handle.
  rewrite Hrun. simpl.
  assert (requires_auth view && negb (truthy (authenticated_of request)) = false)
    as -> by (destruct Hauth as [-> | ->]; [reflexivity | apply andb_false_r]).
  unfold bind, emit, call, lift. simpl. rewrite Hh.
  unfold Dispatch.after_call. rewrite <- app_assoc. destruct r; reflexivity.
Qed.

(** Before the guards are passed nothing is logged and the handler is not
    called: the state is left as it was. *)
Lemma handle_guarded view handler request st :
  ~ admitted view request ->
  snd (handle view handler request st) = st.
Proof.
  intros Hn. unfold Dispatch.handle.
  destruct (is_running (app_hass (app request))) eqn:Hrun; simpl; [|reflexivity].
  destruct (requires_auth view) eqn:Hreq; simpl.
  - destruct (truthy (authenticated_of request)) eqn:Ht; simpl; [|reflexivity].
    exfalso. apply Hn. split; [exact Hrun | right; exact Ht].
  - exfalso. apply Hn. split; [exact Hrun | left; exact Hreq].
Qed.

(** C2: when the host application is not running, [handle] returns the
    fixed response of status 503 and leaves the state untouched: nothing is
    logged and the handler is not called, whatever the view requires and
    whatever marker the request carries, so the check comes before the
    authentication check and the call of the handler. *)
Theorem handle_not_running view handler request st :
  is_running (app_hass (app request)) = false ->
  handle view handler request st
  = (Return (web_Response None (PyInt 503)), st).
Proof.
  intros Hrun. unfold Dispatch.handle. rewrite Hrun. reflexivity.
Qed.

(** C3: on a view that requires authentication, a request that is not
    authenticated (marker absent or false) while the host is running is
    refused with [HTTPUnauthorized], and the state is untouched: the
    handler is not called. *)
Theorem handle_unauthorized view handler request st :
  is_running (app_hass (app request)) = true ->
  requires_auth view = true ->
  truthy (authenticated_of request) = false ->
  handle view handler request st = (Raise HTTPUnauthorized, st).
Proof.
  intros Hrun Hreq Ht. unfold Dispatch.handle.
  rewrite Hrun, Hreq, Ht. reflexivity.
Qed.

(** C4, amended: when the handler returns a bare string [s] that holds
    only Unicode scalar values (no lone surrogate), the response has the
    UTF-8 encoding of [s] as body, which decodes to [s], and status 200;
    when [s] holds a lone surrogate, the encoding raises
    [UnicodeEncodeError] and there is no response. *)
Theorem handle_str_body view handler request st s w :
  admitted view request ->
  handler request (match_info request) (world st) = (Return (PyStr s), w) ->
  (forallb encodable s = true ->
   exists bs,
     str_encode s = Return bs /\ bytes_decode bs = Some s
     /\ handle view handler request st
        = (Return (web_Response (Some bs) (PyInt 200)),
           after_call request w st))
  /\ (forallb encodable s = false ->
      handle view handler request st
      = (Raise UnicodeEncodeError, after_call request w st)).
Proof.
  intros Hadm Hh.
  rewrite (handle_admitted view handler request st _ _ Hadm Hh).
  simpl. split; intros Hs.
  - apply str_encode_encodable in Hs as [bs Hbs]. exists bs.
    rewrite Hbs. split; [reflexivity|].
    split; [apply bytes_decode_str_encode, Hbs | reflexivity].
  - apply str_encode_raise_iff in Hs as ->. reflexivity.
Qed.

(** C5, amended: when the handler returns a pair [(b, z)] with an integer
    [z], and [b] is [None], bytes, or a string of Unicode scalar values,
    the response has the status [z] as it is and the body [b] coerced as a
    bare body is: [None] gives the empty body, a string its UTF-8 encoding,
    bytes themselves.  A [b] of another type raises [AssertionError], and a
    string with a lone surrogate [UnicodeEncodeError]: there is no
    response then. *)
Theorem handle_body_status_pair view handler request st b z w :
  admitted view request ->
  handler request (match_info request) (world st)
  = (Return (PyTuple [b; PyInt z]), w) ->
  (is_body b = true -> forallb encodable (Outcomes.text_of b) = true ->
   exists bs,
     coerce_body b = Return bs
     /\ handle view handler request st
        = (Return (web_Response (Some bs) (PyInt z)), after_call request w st)
     /\ respond b = Return (web_Response (Some bs) (PyInt 200))
     /\ (b = PyNone -> bs = [])
     /\ (forall s, b = PyStr s -> str_encode s = Return bs)
     /\ (forall x, b = PyBytes x -> bs = x))
  /\ (is_body b = false ->
      handle view handler request st
      = (Raise AssertionError, after_call request w st))
  /\ (is_body b = true -> forallb encodable (Outcomes.text_of b) = false ->
      handle view handler request st
      = (Raise UnicodeEncodeError, after_call request w st)).
Proof.
  intros Hadm Hh.
  rewrite (handle_admitted view handler request st _ _ Hadm Hh).
  simpl. split; [|split].
  - intros Hb He.
    destruct b as [| | | s | x | | |]; simpl in *; try discriminate.
    + exists []. repeat split; try reflexivity; intros; discriminate.
    + apply str_encode_encodable in He as [bs Hbs]. exists bs.
      rewrite Hbs. simpl. repeat split; try discriminate.
      intros s' [= <-]. exact Hbs.
    + exists x. repeat split; try discriminate.
      intros x' [= <-]. reflexivity.
  - intros Hb. destruct b; simpl in *; try discriminate; reflexivity.
  - intros Hb He.
    destruct b as [| | | s | x | | |]; simpl in *; try discriminate.
    apply str_encode_raise_iff in He as ->. reflexivity.
Qed.

(** C6: when the handler returns a response object, [handle] returns that
    very object: body, status, content type, headers and compression are
    those the handler set. *)
Theorem handle_stream_response view handler request st r w :
  admitted view request ->
  handler request (match_info request) (world st)
  = (Return (PyStreamResponse r), w) ->
  handle view handler request st = (Return r, after_call request w st).
Proof.
  intros Hadm Hh.
  rewrite (handle_admitted view handler request st _ _ Hadm Hh). reflexivity.
Qed.

(** A conforming result never reaches the assertion. *)
Lemma respond_conforming v :
  conforming v = true -> respond v <> Raise AssertionError.
Proof.
  intros Hc.
  destruct v as [| | | s | | l | |]; simpl in *; try discriminate.
  - destruct (str_encode s) eqn:He; simpl; [discriminate|].
    apply str_encode_raises in He as ->. discriminate.
  - destruct l as [|b [|c [|d l]]]; simpl in *; try discriminate.
    destruct b as [| | | s | | | |]; simpl in *; try discriminate.
    destruct (str_encode s) eqn:He; simpl; [discriminate|].
    apply str_encode_raises in He as ->. discriminate.
Qed.

(** What a result that does not conform raises. *)
Lemma respond_not_conforming v :
  conforming v = false ->
  respond v = Raise (if not_a_pair v then ValueError else AssertionError).
Proof.
  intros Hc.
  destruct v as [| | | | | l | |]; simpl in *; try discriminate;
    try reflexivity.
  destruct l as [|b [|c [|d l]]]; simpl in *; try reflexivity.
  destruct b; simpl in *; try discriminate; reflexivity.
Qed.

(** C7, amended: a handler result that does not conform makes [handle]
    raise and produce no response: [AssertionError] when the result is a
    bare value, or a pair whose first component is not [None], a string or
    bytes; [ValueError], from the unpacking, when it is a tuple that does
    not have exactly two components.  A conforming result never raises
    [AssertionError]. *)
Theorem handle_not_conforming view handler request st v w :
  admitted view request ->
  handler request (match_info request) (world st) = (Return v, w) ->
  (conforming v = false ->
   handle view handler request st
   = (Raise (if not_a_pair v then ValueError else AssertionError),
      after_call request w st))
  /\ (conforming v = true ->
      fst (handle view handler request st) <> Raise AssertionError).
Proof.
  intros Hadm Hh.
  rewrite (handle_admitted view handler request st _ _ Hadm Hh). simpl.
  split; intros Hc.
  - rewrite (respond_not_conforming v Hc). reflexivity.
  - apply respond_conforming, Hc.
Qed.

(** C10, amended: on a view that requires authentication, a request
    without the authentication marker never reaches the handler (the
    state is untouched); it is refused with [HTTPUnauthorized] when the
    host is running, and gets the fixed 503 response of the running check,
    which comes first, when it is not. *)
Theorem handle_marker_absent view handler request st :
  requires_auth view = true ->
  items request !! KEY_AUTHENTICATED = None ->
  snd (handle view handler request st) = st
  /\ (is_running (app_hass (app request)) = true ->
      fst (handle view handler request st) = Raise HTTPUnauthorized)
  /\ (is_running (app_hass (app request)) = false ->
      fst (handle view handler request st)
      = Return (web_Response None (PyInt 503))).
Proof.
  intros Hreq Hnone.
  assert (truthy (authenticated_of request) = false) as Ht
    by (unfold Dispatch.authenticated_of; rewrite Hnone; reflexivity).
  split; [|split].
  - apply handle_guarded. intros [_ [H | H]]; congruence.
  - intros Hrun. unfold Dispatch.handle. rewrite Hrun, Hreq, Ht. reflexivity.
  - intros Hrun. unfold Dispatch.handle. rewrite Hrun. reflexivity.
Qed.

End DispatcherFacts.

(** ** The JSON helper *)

Section JsonFacts.
Import Py Dispatch.
Variable json_dumps : forall (sort_keys : bool), PyVal -> Result pystr.
Variable CONTENT_TYPE_JSON : string.

Local Abbreviation json := (Dispatch.json json_dumps CONTENT_TYPE_JSON).
Local Abbreviation json_with_defaults :=
  (Dispatch.json_with_defaults json_dumps CONTENT_TYPE_JSON).

(** C9: for a value [json.dumps] serializes, with [sort_keys=True], to the
    text [s], whose UTF-8 encoding is [msg], the helper gives a response
    with body [msg], the JSON content type, compression enabled, the
    headers and the status code of the caller as they are, and status 200
    when the caller gives none. *)
Theorem json_response result status_code hdrs s msg :
  json_dumps true result = Return s ->
  str_encode s = Return msg ->
  json result status_code hdrs
  = Return {| body := Some msg; status := status_code;
              content_type := Some CONTENT_TYPE_JSON; headers := hdrs;
              compression := true |}
  /\ json_with_defaults result
     = Return {| body := Some msg; status := PyInt 200;
                 content_type := Some CONTENT_TYPE_JSON; headers := None;
                 compression := true |}.
Proof.
  intros Hd He. unfold Dispatch.json_with_defaults, Dispatch.json.
  rewrite Hd. simpl. rewrite He. split; reflexivity.
Qed.

(** A value that cannot be serialized gives no response. *)
Lemma json_not_serializable result status_code hdrs e :
  json_dumps true result = Raise e ->
  json result status_code hdrs = Raise e.
Proof. intros Hd. unfold Dispatch.json. rewrite Hd. reflexivity. Qed.

End JsonFacts.

(** ** Starting the server *)

Section LifecycleFacts.
Import Py Lifecycle.

(** C8, amended: when the bind fails with [OSError], [start] logs the
    error and records no server ([self.server] keeps its value), and it
    returns normally; the handler made just before the bind stays
    installed, and the last two statements still run: the prepared
    middlewares are installed and the frozen flag is cleared. *)
Theorem start_bind_failure env self context error :
  tls_context env self = Return context ->
  create_server env AppHandler (server_host self) (server_port self) context
  = Raise (OSError error) ->
  exists self',
    start env self = (Return tt, self')
    /\ server self' = server self
    /\ _handler self' = Some AppHandler
    /\ app_middlewares_prepared self' = true
    /\ app_frozen self' = false
    /\ steps self'
       = steps self ++ [AppStartup]
         ++ match context with Some _ => [CertLoaded] | None => [] end
         ++ [HandlerMade; BindErrorLogged (server_port self) error;
             MiddlewaresPrepared].
Proof.
  intros Hctx Hbind. unfold start, tls_context in *.
  destruct self as [cert key host port frozen prepared h srv stps];
    simpl in *.
  destruct cert as [c|]; [destruct (String.eqb c "")|]; simpl in *.
  - injection Hctx as <-. unfold listen; simpl. rewrite Hbind.
    eexists; split; [reflexivity|]. simpl.
    rewrite <- !app_assoc. repeat split.
  - destruct (load_cert_chain env c key) as [ctx|e]; simpl in *;
      [|discriminate].
    injection Hctx as <-. unfold listen; simpl. rewrite Hbind.
    eexists; split; [reflexivity|]. simpl.
    rewrite <- !app_assoc. repeat split.
  - injection Hctx as <-. unfold listen; simpl. rewrite Hbind.
    eexists; split; [reflexivity|]. simpl.
    rewrite <- !app_assoc. repeat split.
Qed.

(** When the certificate cannot be read, [start] does stop there. *)
Lemma start_certificate_failure env self certificate error :
  ssl_certificate self = Some certificate ->
  certificate <> "" ->
  load_cert_chain env certificate (ssl_key self) = Raise (OSError error) ->
  start env self
  = (Return tt, did (CertErrorLogged certificate error) (did AppStartup self)).
Proof.
  intros Hc Hne Hl. unfold start. simpl. rewrite Hc.
  destruct (String.eqb_spec certificate ""); [contradiction|].
  rewrite Hl. reflexivity.
Qed.

End LifecycleFacts.

(** ** Bans and authentication *)

Section BanFacts.
Import Bans.

Implicit Types (cfg : Config) (st : State) (req : Request) (a : Addr).

(** One request through the application [__init__] builds, with the ban
    tracker installed. *)
Lemma process_ban_enabled cfg st req :
  is_ban_enabled cfg = true ->
  process (HomeAssistantHTTP_init cfg) st req
  = if is_banned (login_threshold cfg) (attempts st (remote req))
    then (Rejected, st)
    else if validate (trusted_networks cfg) (api_password cfg) req
         then (Dispatched true, credential_checked st)
         else (Dispatched false,
               record_failure (remote req) (credential_checked st)).
Proof.
  intros Hen. unfold process, HomeAssistantHTTP_init. rewrite Hen.
  destruct (cors_origins cfg); simpl;
    destruct (is_banned _ _); try reflexivity;
    destruct (validate _ _ _); reflexivity.
Qed.

(** The same without the ban tracker. *)
Lemma process_ban_disabled cfg st req :
  is_ban_enabled cfg = false ->
  process (HomeAssistantHTTP_init cfg) st req
  = (Dispatched (validate (trusted_networks cfg) (api_password cfg) req),
     credential_checked st).
Proof.
  intros Hen. unfold process, HomeAssistantHTTP_init. rewrite Hen.
  destruct (cors_origins cfg); reflexivity.
Qed.

Lemma attempts_record_failure a b st :
  attempts (record_failure b st) a
  = if decide (b = a) then S (attempts st a) else attempts st a.
Proof.
  unfold attempts at 1, record_failure; simpl.
  rewrite lookup_insert. destruct (decide (b = a)) as [->|]; reflexivity.
Qed.

Lemma attempts_credential_checked a st :
  attempts (credential_checked st) a = attempts st a.
Proof. reflexivity. Qed.

(** A request adds one to the count of its address exactly when it is a
    failed attempt. *)
Lemma attempts_process cfg st req a :
  is_ban_enabled cfg = true ->
  attempts (snd (process (HomeAssistantHTTP_init cfg) st req)) a
  = if failed_attempt_of a req (fst (process (HomeAssistantHTTP_init cfg) st req))
    then S (attempts st a) else attempts st a.
Proof.
  intros Hen. rewrite (process_ban_enabled cfg st req Hen).
  destruct (is_banned _ _); [reflexivity|].
  destruct (validate _ _ _); simpl; [reflexivity|].
  rewrite attempts_record_failure, attempts_credential_checked.
  destruct (decide (remote req = a)) as [->|Hne].
  - rewrite Z.eqb_refl. reflexivity.
  - apply Z.eqb_neq in Hne. rewrite Hne. reflexivity.
Qed.

(** The tracker's count is the number of failed attempts seen. *)
Lemma attempts_serve cfg reqs st a :
  is_ban_enabled cfg = true ->
  attempts (snd (serve (HomeAssistantHTTP_init cfg) st reqs)) a
  = (attempts st a
     + failures a reqs (fst (serve (HomeAssistantHTTP_init cfg) st reqs)))%nat.
Proof.
  intros Hen. revert st.
  induction reqs as [|req reqs IH]; intros st; simpl; [lia|].
  pose proof (attempts_process cfg st req a Hen) as Hp.
  destruct (process (HomeAssistantHTTP_init cfg) st req) as [o st1].
  specialize (IH st1).
  destruct (serve (HomeAssistantHTTP_init cfg) st1 reqs) as [os st2].
  simpl in *. rewrite IH, Hp.
  destruct (failed_attempt_of a req o); lia.
Qed.

Lemma serve_app app st l1 l2 :
  serve app st (l1 ++ l2)
  = (fst (serve app st l1) ++ fst (serve app (snd (serve app st l1)) l2),
     snd (serve app (snd (serve app st l1)) l2)).
Proof.
  revert st. induction l1 as [|req l1 IH]; intros st; simpl.
  - destruct (serve app st l2); reflexivity.
  - destruct (process app st req) as [o st1]. rewrite (IH st1).
    destruct (serve app st1 l1) as [os st2]. simpl.
    reflexivity.
Qed.

(** C1, amended: when ban tracking is enabled and the threshold is not
    the "unlimited" value, once the failed attempts of an address have
    reached the threshold, every later request from that address is
    rejected by the ban tracker and leaves the state as it was: no
    credential check runs, whatever credential the request presents. *)
Theorem ban_is_standing cfg :
  is_ban_enabled cfg = true ->
  login_threshold cfg <> NO_LOGIN_ATTEMPT_THRESHOLD ->
  standing_ban cfg.
Proof.
  intros Hen Hthr a earlier later req app Hreached Hfrom st.
  subst app st. rewrite (process_ban_enabled cfg _ req Hen).
  assert (is_banned (login_threshold cfg)
            (attempts (snd (serve (HomeAssistantHTTP_init cfg) initial_state
                              (earlier ++ later))) (remote req)) = true)
    as ->; [|reflexivity].
  unfold is_banned. apply andb_true_intro. split.
  - apply negb_true_iff, Z.eqb_neq, Hthr.
  - apply Z.leb_le. rewrite serve_app. simpl.
    rewrite (attempts_serve cfg later _ _ Hen).
    rewrite (attempts_serve cfg earlier _ _ Hen).
    subst a. lia.
Qed.

End BanFacts.

(** ** The properties at sample inputs *)

Section Checks.
Import Py Samples.

Example str_encode_text : str_encode text = Return text_utf8.
Proof. reflexivity. Qed.

Example str_encode_lone_surrogate :
  str_encode [104; 55296] = Raise UnicodeEncodeError.
Proof. reflexivity. Qed.

Lemma handle_not_running_witness :
  Dispatch.is_running (Dispatch.app_hass (Dispatch.app
    (request_of false (Some (PyBool true))))) = false
  /\ handle api_view (returning PyNone) (request_of false (Some (PyBool true))) st0
     = (Return (Dispatch.web_Response None (PyInt 503)), st0).
Proof.
  split; [reflexivity|].
  apply (@handle_not_running unit KEY_AUTHENTICATED KEY_REAL_IP).
  reflexivity.
Defined.

Lemma handle_unauthorized_witness :
  handle api_view (returning PyNone) (request_of true (Some (PyBool false))) st0
  = (Raise HTTPUnauthorized, st0).
Proof.
  apply (@handle_unauthorized unit KEY_AUTHENTICATED KEY_REAL_IP);
    reflexivity.
Defined.

Lemma admitted_sample :
  Dispatch.admitted KEY_AUTHENTICATED api_view
    (request_of true (Some (PyBool true))).
Proof. split; [reflexivity | right; reflexivity]. Defined.

Lemma handle_str_body_witness :
  exists bs,
    str_encode text = Return bs /\ bytes_decode bs = Some text
    /\ handle api_view (returning (PyStr text))
         (request_of true (Some (PyBool true))) st0
       = (Return (Dispatch.web_Response (Some bs) (PyInt 200)),
          after_call (request_of true (Some (PyBool true))) tt st0).
Proof.
  destruct (@handle_str_body unit KEY_AUTHENTICATED KEY_REAL_IP
              api_view (returning (PyStr text))
              (request_of true (Some (PyBool true))) st0 text tt
              admitted_sample eq_refl) as [H _].
  exact (H eq_refl).
Defined.

(** C4 as stated fails: a string with a lone surrogate is a string, and
    the handler that returns it gets no response at all, the encoding
    raises. *)
Lemma handle_str_body_counterexample :
  ~ (forall view (handler : @Dispatch.Handler unit) request st s w,
       Dispatch.admitted KEY_AUTHENTICATED view request ->
       handler request (Dispatch.match_info request) (Dispatch.world st)
       = (Return (PyStr s), w) ->
       exists bs,
         fst (handle view handler request st)
         = Return (Dispatch.web_Response (Some bs) (PyInt 200))).
Proof.
  intros H.
  destruct (H api_view (returning (PyStr MoreSamples.lone_surrogate))
              (request_of true (Some (PyBool true))) st0
              MoreSamples.lone_surrogate tt admitted_sample eq_refl)
    as [bs Hbs].
  vm_compute in Hbs. discriminate Hbs.
Qed.

Lemma handle_body_status_pair_witness :
  exists bs,
    Dispatch.coerce_body (PyStr text) = Return bs
    /\ handle api_view (returning (PyTuple [PyStr text; PyInt 404]))
         (request_of true (Some (PyBool true))) st0
       = (Return (Dispatch.web_Response (Some bs) (PyInt 404)),
          after_call (request_of true (Some (PyBool true))) tt st0).
Proof.
  destruct (@handle_body_status_pair unit KEY_AUTHENTICATED KEY_REAL_IP
              api_view (returning (PyTuple [PyStr text; PyInt 404]))
              (request_of true (Some (PyBool true))) st0
              (PyStr text) 404 tt admitted_sample eq_refl) as [H _].
  destruct (H eq_refl eq_refl) as (bs & Hc & Hh & _).
  exists bs. split; assumption.
Defined.

(** C5 as stated fails: the pair of a string with a lone surrogate and
    the status 200 is a (body, status) pair, and there is no response to
    it. *)
Lemma handle_body_status_pair_counterexample :
  ~ (forall view (handler : @Dispatch.Handler unit) request st b status_code w,
       Dispatch.admitted KEY_AUTHENTICATED view request ->
       handler request (Dispatch.match_info request) (Dispatch.world st)
       = (Return (PyTuple [b; status_code]), w) ->
       exists r,
         fst (handle view handler request st) = Return r
         /\ status r = status_code).
Proof.
  intros H.
  destruct (H api_view
              (returning (PyTuple [PyStr MoreSamples.lone_surrogate; PyInt 200]))
              (request_of true (Some (PyBool true))) st0
              (PyStr MoreSamples.lone_surrogate) (PyInt 200) tt
              admitted_sample eq_refl)
    as (r & Hr & _).
  vm_compute in Hr. discriminate Hr.
Qed.

Lemma handle_stream_response_witness :
  handle api_view (returning (PyStreamResponse teapot))
    (request_of true (Some (PyBool true))) st0
  = (Return teapot, after_call (request_of true (Some (PyBool true))) tt st0).
Proof.
  apply (@handle_stream_response unit KEY_AUTHENTICATED KEY_REAL_IP).
  - exact admitted_sample.
  - reflexivity.
Defined.

Lemma handle_not_conforming_witness :
  handle api_view (returning (PyInt 42)) (request_of true (Some (PyBool true))) st0
  = (Raise AssertionError,
     after_call (request_of true (Some (PyBool true))) tt st0).
Proof.
  apply (@handle_not_conforming unit KEY_AUTHENTICATED KEY_REAL_IP
           api_view (returning (PyInt 42))
           (request_of true (Some (PyBool true))) st0 (PyInt 42) tt).
  - exact admitted_sample.
  - reflexivity.
  - reflexivity.
Defined.

(** C7 as stated fails: the empty tuple does not conform, and what it
    raises is [ValueError], not [AssertionError]. *)
Lemma handle_empty_tuple_counterexample :
  ~ (forall view (handler : @Dispatch.Handler unit) request st v w,
       Dispatch.admitted KEY_AUTHENTICATED view request ->
       handler request (Dispatch.match_info request) (Dispatch.world st)
       = (Return v, w) ->
       Dispatch.conforming v = false ->
       fst (handle view handler request st) = Raise AssertionError).
Proof.
  intros H.
  specialize (H api_view (returning (PyTuple []))
                (request_of true (Some (PyBool true))) st0 (PyTuple []) tt
                admitted_sample eq_refl eq_refl).
  vm_compute in H. discriminate H.
Qed.

Lemma handle_marker_absent_witness :
  handle api_view (returning PyNone) (request_of true None) st0
  = (Raise HTTPUnauthorized, st0).
Proof.
  destruct (@handle_marker_absent unit KEY_AUTHENTICATED KEY_REAL_IP
              api_view (returning PyNone) (request_of true None) st0
              eq_refl eq_refl) as (Hst & Hrun & _).
  apply injective_projections; [exact (Hrun eq_refl) | exact Hst].
Defined.

(** C10 as stated fails: while the host is not running, the request
    without marker gets the 503 response and not [HTTPUnauthorized]. *)
Lemma handle_marker_absent_counterexample :
  ~ (forall view (handler : @Dispatch.Handler unit) request st,
       Dispatch.requires_auth view = true ->
       Dispatch.items request !! KEY_AUTHENTICATED = None ->
       fst (handle view handler request st) = Raise HTTPUnauthorized).
Proof.
  intros H.
  specialize (H api_view (returning PyNone) (request_of false None) st0
                eq_refl eq_refl).
  vm_compute in H. discriminate H.
Qed.

Lemma json_response_witness :
  Dispatch.json dumps_constants "application/json" (PyBool true) (PyInt 201) None
  = Return {| body := Some [116; 114; 117; 101]; status := PyInt 201;
              content_type := Some "application/json"; headers := None;
              compression := true |}.
Proof.
  apply (json_response dumps_constants "application/json" (PyBool true)
           (PyInt 201) None [116; 114; 117; 101] [116; 114; 117; 101]);
    reflexivity.
Defined.

Lemma start_bind_failure_witness :
  exists self',
    Lifecycle.start port_taken plain_server = (Return tt, self')
    /\ Lifecycle.server self' = None
    /\ Lifecycle._handler self' = Some Lifecycle.AppHandler.
Proof.
  destruct (start_bind_failure port_taken plain_server None "address in use"
              eq_refl eq_refl) as (self' & Hs & Hsrv & Hh & _).
  exists self'. repeat split; assumption.
Defined.

(** C8 as stated fails: after the failed bind the handler is still
    installed and the middlewares have been prepared. *)
Lemma start_bind_failure_counterexample :
  ~ Lifecycle.bind_failure_aborts port_taken plain_server.
Proof.
  intros H. destruct (H None "address in use" eq_refl eq_refl) as [Hh _].
  vm_compute in Hh. discriminate Hh.
Qed.

Example start_port_taken_steps :
  Lifecycle.steps (snd (Lifecycle.start port_taken plain_server))
  = [Lifecycle.AppStartup; Lifecycle.HandlerMade;
     Lifecycle.BindErrorLogged 8123 "address in use";
     Lifecycle.MiddlewaresPrepared].
Proof. reflexivity. Qed.

Lemma ban_is_standing_witness :
  let app := Bans.HomeAssistantHTTP_init (with_bans true 2) in
  let st := snd (Bans.serve app Bans.initial_state [intruder; intruder]) in
  Bans.process app st owner = (Bans.Rejected, st).
Proof.
  intros app st.
  apply (ban_is_standing (with_bans true 2) eq_refl ltac:(discriminate)
           167772167 [intruder; intruder] [] owner).
  - vm_compute. discriminate.
  - reflexivity.
Defined.

(** C1 as stated fails: with ban tracking disabled, after two failed
    attempts and a threshold of two, the request with the right password
    is served; and so it is with tracking enabled and the default,
    unlimited threshold. *)
Lemma ban_gates_counterexample :
  ~ Bans.standing_ban (with_bans false 2)
  /\ ~ Bans.standing_ban (with_bans true Bans.NO_LOGIN_ATTEMPT_THRESHOLD).
Proof.
  split; intros H.
  - specialize (H 167772167 [intruder; intruder] [] owner).
    simpl in H.
    assert (Hreached : 2 <= Z.of_nat
              (Bans.failures 167772167 [intruder; intruder]
                 (fst (Bans.serve (Bans.HomeAssistantHTTP_init (with_bans false 2))
                         Bans.initial_state [intruder; intruder]))))
      by (vm_compute; discriminate).
    specialize (H Hreached eq_refl).
    apply (f_equal fst) in H. vm_compute in H. discriminate H.
  - specialize (H 167772167 [intruder; intruder] [] owner).
    simpl in H.
    assert (Hreached : Bans.NO_LOGIN_ATTEMPT_THRESHOLD <= Z.of_nat
              (Bans.failures 167772167 [intruder; intruder]
                 (fst (Bans.serve
                         (Bans.HomeAssistantHTTP_init
                            (with_bans true Bans.NO_LOGIN_ATTEMPT_THRESHOLD))
                         Bans.initial_state [intruder; intruder]))))
      by (vm_compute; discriminate).
    specialize (H Hreached eq_refl).
    apply (f_equal fst) in H. vm_compute in H. discriminate H.
Qed.

(** With the unlimited threshold the attempts are still counted. *)
Example ban_unlimited_threshold :
  let app := Bans.HomeAssistantHTTP_init
               (with_bans true Bans.NO_LOGIN_ATTEMPT_THRESHOLD) in
  let st := snd (Bans.serve app Bans.initial_state [intruder; intruder]) in
  Bans.attempts st 167772167 = 2%nat
  /\ fst (Bans.process app st owner) = Bans.Dispatched true.
Proof. split; reflexivity. Qed.

End Checks.

(** ** More on the dispatcher *)

Section DispatcherMore.
Import Py Dispatch Outcomes.
Context {World : Type}.
Variables KEY_AUTHENTICATED KEY_REAL_IP : string.

Local Abbreviation handle := (@Dispatch.handle World KEY_AUTHENTICATED KEY_REAL_IP).
Local Abbreviation after_call :=
  (@Dispatch.after_call World KEY_AUTHENTICATED KEY_REAL_IP).
Local Abbreviation admitted := (Dispatch.admitted KEY_AUTHENTICATED).
Local Abbreviation admittedb := (Outcomes.admittedb KEY_AUTHENTICATED).

Implicit Types (view : HomeAssistantView) (handler : @Handler World)
  (request : Request) (st : @DState World).

Lemma admittedb_true view request :
  admittedb view request = true <-> admitted view request.
Proof.
  unfold Outcomes.admittedb, Dispatch.admitted. split.
  - intros H. apply andb_prop in H as [Hrun H]. split; [exact Hrun|].
    apply orb_prop in H as [H|H]; [left | right; exact H].
    apply negb_true_iff, H.
  - intros [Hrun [H|H]]; rewrite Hrun, H; simpl; [reflexivity|].
    apply orb_true_r.
Qed.

Lemma admittedb_false view request :
  admittedb view request = false -> ~ admitted view request.
Proof.
  intros H Ha. apply admittedb_true in Ha. congruence.
Qed.

(** X1: [handle] calls the handler exactly when the host is running and
    the view does not require authentication or the request is
    authenticated, once, after logging the request; otherwise it leaves the
    state as it was. *)
Theorem handle_state view handler request st :
  snd (handle view handler request st)
  = if admittedb view request
    then after_call request
           (snd (handler request (match_info request) (world st))) st
    else st.
Proof.
  destruct (admittedb view request) eqn:Ha.
  - apply admittedb_true in Ha.
    destruct (handler request (match_info request) (world st)) as [r w] eqn:Hh.
    rewrite (handle_admitted KEY_AUTHENTICATED KEY_REAL_IP
               view handler request st r w Ha Hh).
    reflexivity.
  - apply handle_guarded, admittedb_false, Ha.
Qed.

(** What becomes of a result that conforms. *)
Lemma respond_conforming_cases v :
  conforming v = true ->
  (exists r, respond v = Return r /\ forallb encodable (text_of v) = true)
  \/ (respond v = Raise UnicodeEncodeError
      /\ forallb encodable (text_of v) = false).
Proof.
  intros Hc.
  destruct v as [| | | s | | l | |]; simpl in *; try discriminate;
    try (left; eexists; split; reflexivity).
  - destruct (forallb encodable s) eqn:He.
    + left. apply str_encode_encodable in He as [bs ->].
      eexists; split; reflexivity.
    + right. apply str_encode_raise_iff in He as ->. split; reflexivity.
  - destruct l as [|b [|c [|d l]]]; simpl in *; try discriminate.
    destruct b as [| | | s | | | |]; simpl in *; try discriminate;
      try (left; eexists; split; reflexivity).
    destruct (forallb encodable s) eqn:He.
    + left. apply str_encode_encodable in He as [bs ->].
      eexists; split; reflexivity.
    + right. apply str_encode_raise_iff in He as ->. split; reflexivity.
Qed.

(** X2: past the guards, [handle] answers a value [v] of the handler
    whose status, if it is a pair, is an integer, with a response exactly
    when [v] conforms (a response, or [None], a string or bytes, bare or in
    front of a pair) and the string in it, if any, holds only Unicode scalar
    values. *)
Theorem handle_answers_iff view handler request st v w :
  admitted view request ->
  handler request (match_info request) (world st) = (Return v, w) ->
  int_status v = true ->
  (exists r, fst (handle view handler request st) = Return r)
  <-> conforming v = true /\ forallb encodable (text_of v) = true.
Proof.
  intros Hadm Hh _.
  rewrite (handle_admitted KEY_AUTHENTICATED KEY_REAL_IP
             view handler request st _ _ Hadm Hh). simpl.
  split.
  - intros [r Hr]. destruct (conforming v) eqn:Hc.
    + destruct (respond_conforming_cases v Hc) as [(r' & _ & He)|[Hx _]];
        [split; [reflexivity | exact He] | congruence].
    + rewrite (respond_not_conforming v Hc) in Hr. discriminate.
  - intros [Hc He].
    destruct (respond_conforming_cases v Hc) as [(r & Hr & _)|[_ Hx]];
      [exists r; exact Hr | congruence].
Qed.

(** X3: when the value the handler returns, if it is a pair, has an
    integer as status, an exception out of [handle] is [HTTPUnauthorized]
    from the guard, with the handler not called; or the exception the
    handler raised; or, for a value [v] the handler returned, [ValueError]
    when [v] is a tuple that is not a pair, [AssertionError] when [v] is of
    another type that does not conform, [UnicodeEncodeError] when its string
    holds a lone surrogate.  Nothing else is raised, and nothing is
    caught. *)
Theorem handle_raise_cases view handler request st e :
  (forall v, fst (handler request (match_info request) (world st)) = Return v ->
             int_status v = true) ->
  fst (handle view handler request st) = Raise e ->
  (e = HTTPUnauthorized /\ admittedb view request = false
   /\ snd (handle view handler request st) = st)
  \/ (admittedb view request = true
      /\ fst (handler request (match_info request) (world st)) = Raise e)
  \/ (admittedb view request = true
      /\ exists v,
           fst (handler request (match_info request) (world st)) = Return v
           /\ raised_by_handle e = true
           /\ (e = ValueError <-> not_a_pair v = true)
           /\ (e = AssertionError
               <-> conforming v = false /\ not_a_pair v = false)
           /\ (e = UnicodeEncodeError
               <-> conforming v = true
                   /\ forallb encodable (text_of v) = false)).
Proof.
  intros _ He.
  destruct (admittedb view request) eqn:Ha.
  - right. apply admittedb_true in Ha.
    destruct (handler request (match_info request) (world st)) as [r w] eqn:Hh.
    rewrite (handle_admitted KEY_AUTHENTICATED KEY_REAL_IP
               view handler request st r w Ha Hh) in He.
    simpl in He. destruct r as [v|e']; simpl in He.
    + right. split; [reflexivity|]. exists v. split; [reflexivity|].
      destruct (conforming v) eqn:Hc.
      * destruct (respond_conforming_cases v Hc) as [(r & Hr & _)|[Hx Hs]];
          [congruence|].
        rewrite Hx in He. injection He as <-.
        assert (not_a_pair v = false) as Hp.
        { destruct v as [| | | | | l | |]; try reflexivity.
          destruct l as [|b [|c [|d l]]]; simpl in *; congruence. }
        rewrite Hp. repeat split; try discriminate; try assumption;
          try (intros [? ?]; discriminate); reflexivity.
      * rewrite (respond_not_conforming v Hc) in He. injection He as <-.
        destruct (not_a_pair v); repeat split; try discriminate;
          try (intros [? ?]; discriminate); try reflexivity;
          intros; discriminate.
    + left. split; [reflexivity|]. simpl. congruence.
  - left.
    assert (snd (handle view handler request st) = st) as Hst
      by (apply handle_guarded, admittedb_false, Ha).
    split; [|split; [reflexivity | exact Hst]].
    unfold Outcomes.admittedb in Ha. unfold Dispatch.handle in He.
    destruct (is_running (app_hass (app request))); simpl in *;
      [|discriminate].
    destruct (requires_auth view); simpl in *; [|discriminate].
    rewrite Ha in He. simpl in He. congruence.
Qed.

(** X4: when [handle] answers a string, bare or in front of a pair, the
    body of the response is made of octets and decodes, as UTF-8, to that
    very string. *)
Theorem handle_text_round_trip view handler request st s v w r :
  admitted view request ->
  handler request (match_info request) (world st) = (Return v, w) ->
  v = PyStr s \/ (exists status_code, v = PyTuple [PyStr s; status_code]) ->
  fst (handle view handler request st) = Return r ->
  exists bs,
    body r = Some bs /\ forallb is_octet bs = true /\ bytes_decode bs = Some s.
Proof.
  intros Hadm Hh Hv Hr.
  rewrite (handle_admitted KEY_AUTHENTICATED KEY_REAL_IP
             view handler request st _ _ Hadm Hh) in Hr.
  simpl in Hr.
  assert (exists status_code,
            rbind (str_encode s) (fun bs =>
              Return (web_Response (Some bs) status_code)) = Return r)
    as [status_code Hs].
  { destruct Hv as [-> | [status_code ->]]; simpl in Hr; eexists; exact Hr. }
  destruct (str_encode s) as [bs|] eqn:Henc; simpl in Hs; [|discriminate].
  injection Hs as <-. exists bs. split; [reflexivity|].
  split; [eapply str_encode_octets, Henc | apply bytes_decode_str_encode, Henc].
Qed.

End DispatcherMore.

(** ** More on the JSON helper *)

Section JsonMore.
Import Py Dispatch.
Variable json_dumps : forall (sort_keys : bool), PyVal -> Result pystr.
Variable CONTENT_TYPE_JSON : string.

Local Abbreviation json := (Dispatch.json json_dumps CONTENT_TYPE_JSON).

(** X5: whatever [json] returns is a compressed response of the JSON
    content type, with the status and the headers of the caller, whose body
    decodes, as UTF-8, to the text [json.dumps] gave with sorted keys; an
    exception of [json.dumps] goes on to the caller as it is, and a text that
    cannot be encoded raises [UnicodeEncodeError]: in both cases no response
    is built. *)
Theorem json_outcome result status_code hdrs :
  (forall r,
     json result status_code hdrs = Return r ->
     exists s msg,
       json_dumps true result = Return s
       /\ str_encode s = Return msg
       /\ bytes_decode msg = Some s
       /\ r = {| body := Some msg; status := status_code;
                 content_type := Some CONTENT_TYPE_JSON; headers := hdrs;
                 compression := true |})
  /\ (forall e,
        json_dumps true result = Raise e ->
        json result status_code hdrs = Raise e)
  /\ (forall s,
        json_dumps true result = Return s ->
        forallb encodable s = false ->
        json result status_code hdrs = Raise UnicodeEncodeError).
Proof.
  unfold Dispatch.json. split; [|split].
  - intros r.
    destruct (json_dumps true result) as [s|e] eqn:Hd; simpl; [|discriminate].
    destruct (str_encode s) as [msg|e] eqn:He; simpl; [|discriminate].
    intros [= <-]. exists s, msg. repeat split; try exact He.
    apply bytes_decode_str_encode, He.
  - intros e ->. reflexivity.
  - intros s -> Hs. simpl.
    apply str_encode_raise_iff in Hs as ->. reflexivity.
Qed.

End JsonMore.

(** ** Paths of static files *)

Section PathFacts.
Import Py Routing.

Implicit Types (c : Ascii.ascii) (s p : chars).

Lemma rfind_lower c s : -1 <= rfind c s.
Proof.
  induction s as [|x s IH]; simpl; [lia|].
  destruct (Z.ltb_spec (rfind c s) 0); [destruct (Ascii.eqb x c)|]; lia.
Qed.

(** [rfind] gives [-1] exactly when the character does not occur. *)
Lemma rfind_absent c s : rfind c s = -1 <-> ~ In c s.
Proof.
  induction s as [|x s IH]; simpl; [tauto|].
  pose proof (rfind_lower c s).
  destruct (Z.ltb_spec (rfind c s) 0).
  - assert (rfind c s = -1) as Hr by lia. apply IH in Hr.
    destruct (Ascii.eqb_spec x c); split; try tauto; try lia.
  - split; [lia|]. intros Hn. exfalso.
    assert (rfind c s <> -1) as Hne by lia. apply Hne, IH. tauto.
Qed.

(** Otherwise it gives the place of the last occurrence. *)
Lemma rfind_found c s :
  0 <= rfind c s ->
  exists pre post,
    s = pre ++ c :: post /\ Z.of_nat (length pre) = rfind c s /\ ~ In c post.
Proof.
  induction s as [|x s IH]; simpl; [lia|].
  pose proof (rfind_lower c s).
  destruct (Z.ltb_spec (rfind c s) 0).
  - assert (rfind c s = -1) as Hr by lia. apply rfind_absent in Hr.
    destruct (Ascii.eqb_spec x c) as [->|]; [|lia].
    intros _. exists [], s. repeat split. exact Hr.
  - intros _. destruct IH as (pre & post & -> & Hlen & Hpost); [lia|].
    exists (x :: pre), post. repeat split; [|exact Hpost].
    simpl length. lia.
Qed.

Lemma rfind_app_absent c s1 s2 :
  ~ In c s2 -> rfind c (s1 ++ s2) = rfind c s1.
Proof.
  intros Hn. induction s1 as [|x s1 IH]; simpl.
  - apply rfind_absent, Hn.
  - rewrite IH. reflexivity.
Qed.

Lemma rfind_app_present c s1 s2 :
  0 <= rfind c s2 ->
  rfind c (s1 ++ s2) = Z.of_nat (length s1) + rfind c s2.
Proof.
  intros Hp. induction s1 as [|x s1 IH]; simpl app; [simpl; lia|].
  cbn [rfind]. rewrite IH.
  destruct (Z.ltb_spec (Z.of_nat (length s1) + rfind c s2) 0); [lia|].
  simpl length. lia.
Qed.

(** The parts of a path whose extension is not empty. *)
Lemma splitext_extension p base ext :
  splitext p = (base, ext) -> ext <> [] ->
  exists rest,
    p = base ++ ext /\ ext = "."%char :: rest
    /\ ~ In "."%char rest /\ ~ In "/"%char ext
    /\ Z.of_nat (length base) = rfind "."%char p
    /\ rfind "/"%char p < rfind "."%char p
    /\ existsb (fun ch => negb (Ascii.eqb ch "."%char))
         (slice p (rfind "/"%char p + 1) (rfind "."%char p)) = true.
Proof.
  unfold splitext. intros H Hne.
  destruct (Z.ltb_spec (rfind "/"%char p) (rfind "."%char p)) as [Hlt|];
    [|injection H as <- <-; contradiction].
  destruct (existsb _ _) eqn:Hex; [|injection H as <- <-; contradiction].
  injection H as <- <-.
  pose proof (rfind_lower "/"%char p).
  destruct (rfind_found "."%char p) as (pre & post & Hp & Hlen & Hpost); [lia|].
  rewrite <- Hlen, Nat2Z.id.
  assert (take (length pre) p = pre) as Ht
    by (rewrite Hp, take_app_length; reflexivity).
  assert (drop (length pre) p = "."%char :: post) as Hd
    by (rewrite Hp, drop_app_length; reflexivity).
  rewrite Ht, Hd. exists post.
  split; [exact Hp|]. split; [reflexivity|]. split; [exact Hpost|].
  split; [|split; [reflexivity | split; [lia | reflexivity]]].
  intros Hin.
  assert (0 <= rfind "/"%char ("."%char :: post)) as Hpos.
  { pose proof (rfind_lower "/"%char ("."%char :: post)).
    destruct (Z.eq_dec (rfind "/"%char ("."%char :: post)) (-1)) as [He|]; [|lia].
    apply rfind_absent in He. contradiction. }
  pose proof (rfind_app_present "/"%char pre _ Hpos) as Happ.
  rewrite <- Hp in Happ. lia.
Qed.

(** [splitext] loses nothing: base and extension put together are
    the path; and the extension, when there is one, is a dot followed by
    characters that are neither dots nor slashes. *)
Theorem splitext_parts p :
  fst (splitext p) ++ snd (splitext p) = p
  /\ (snd (splitext p) = []
      \/ exists rest,
           snd (splitext p) = "."%char :: rest
           /\ ~ In "."%char rest /\ ~ In "/"%char rest).
Proof.
  destruct (splitext p) as [base ext] eqn:H. simpl.
  destruct ext as [|x ext].
  - split; [|left; reflexivity].
    unfold splitext in H.
    destruct (_ <? _); [destruct (existsb _ _)|].
    + injection H as <- Hd. rewrite <- Hd. apply take_drop.
    + injection H as <-. apply app_nil_r.
    + injection H as <-. apply app_nil_r.
  - destruct (splitext_extension p base (x :: ext) H ltac:(discriminate))
      as (rest & Hp & He & Hdot & Hsep & _).
    split; [symmetry; exact Hp|]. right. exists rest.
    split; [exact He|]. split; [exact Hdot|].
    intros Hin. apply Hsep. rewrite He. right. exact Hin.
Qed.

(** The pattern [register_static_path] makes for a file.  Without an
    extension it is the URL path itself; with one, the URL path is
    [dir/file.ext], [file] holding no slash and not only dots, and the
    pattern is [dir/{filename:file(-[a-z0-9]{32}|).ext}]. *)
Theorem url_pattern_of_return url_path pattern :
  url_pattern_of url_path = Return pattern ->
  (snd (splitext url_path) = [] /\ pattern = url_path)
  \/ exists dir file ext,
       url_path = dir ++ "/"%char :: file ++ ext
       /\ snd (splitext url_path) = ext /\ ext <> []
       /\ ~ In "/"%char file
       /\ existsb (fun ch => negb (Ascii.eqb ch "."%char)) file = true
       /\ pattern
          = dir ++ filename_open ++ file ++ md5_suffix ++ ext ++ filename_close.
Proof.
  unfold url_pattern_of. destruct (splitext url_path) as [base ext] eqn:Hs.
  destruct ext as [|x ext]; [intros [= <-]; left; split; reflexivity|].
  destruct (splitext_extension url_path base (x :: ext) Hs ltac:(discriminate))
    as (rest & Hp & He & Hdot & Hsep & Hlen & Hlt & Hex).
  unfold rsplit1.
  assert (rfind "/"%char url_path = rfind "/"%char base) as Hrf
    by (rewrite Hp; apply rfind_app_absent, Hsep).
  destruct (Z.ltb_spec (rfind "/"%char base) 0); [discriminate|].
  intros [= <-]. right.
  destruct (rfind_found "/"%char base) as (dir & file & Hb & Hdl & Hfile);
    [lia|].
  exists dir, file, (x :: ext).
  assert (take (Z.to_nat (rfind "/"%char base)) base = dir) as Ht.
  { rewrite <- Hdl, Nat2Z.id, Hb, take_app_length. reflexivity. }
  assert (drop (Z.to_nat (rfind "/"%char base + 1)) base = file) as Hd.
  { rewrite <- Hdl. replace (Z.to_nat (Z.of_nat (length dir) + 1))
      with (length dir + 1)%nat by lia.
    rewrite Hb. rewrite <- drop_drop, drop_app_length. reflexivity. }
  rewrite Ht, Hd.
  split; [rewrite Hp, Hb, <- app_assoc; reflexivity|].
  split; [reflexivity|]. split; [discriminate|]. split; [exact Hfile|].
  split; [|rewrite <- !app_assoc; reflexivity].
  revert Hex. unfold slice. rewrite Hrf, <- Hlen, <- Hdl.
  replace (Z.to_nat (Z.of_nat (length dir) + 1)) with (length dir + 1)%nat
    by lia.
  rewrite Nat2Z.id, Hp, Hb.
  rewrite <- !app_assoc. rewrite <- drop_drop, drop_app_length. simpl drop.
  rewrite length_app. simpl length.
  replace (length dir + S (length file) - (length dir + 1))%nat
    with (length file) by lia.
  rewrite drop_0, take_app_length. exact (fun H => H).
Qed.

(** The pattern cannot be made, and [ValueError] is raised by the
    unpacking of [rsplit], exactly when the URL path has an extension and
    no slash at all. *)
Theorem url_pattern_of_raise url_path e :
  url_pattern_of url_path = Raise e
  <-> e = ValueError /\ snd (splitext url_path) <> []
      /\ ~ In "/"%char url_path.
Proof.
  unfold url_pattern_of. destruct (splitext url_path) as [base ext] eqn:Hs.
  simpl. destruct ext as [|x ext].
  - split; [discriminate | intros (_ & H & _); contradiction].
  - destruct (splitext_extension url_path base (x :: ext) Hs ltac:(discriminate))
      as (rest & Hp & He & Hdot & Hsep & _).
    assert (rfind "/"%char url_path = rfind "/"%char base) as Hrf
      by (rewrite Hp; apply rfind_app_absent, Hsep).
    unfold rsplit1. pose proof (rfind_lower "/"%char base).
    destruct (Z.ltb_spec (rfind "/"%char base) 0).
    + assert (rfind "/"%char url_path = -1) as Hr by lia.
      apply rfind_absent in Hr.
      split; [intros [= <-] | intros (-> & _); reflexivity].
      repeat split; [discriminate | exact Hr].
    + split; [discriminate|]. intros (_ & _ & Hn).
      apply rfind_absent in Hn. lia.
Qed.

End PathFacts.

(** ** Registration *)

Section RoutingFacts.
Import Py Dispatch Routing.
Context {World : Type}.
Variables KEY_AUTHENTICATED KEY_REAL_IP : string.

Local Abbreviation Router := (@UrlDispatcher World).
Local Abbreviation register := (@Routing.register World KEY_AUTHENTICATED KEY_REAL_IP).
Local Abbreviation register_methods :=
  (@Routing.register_methods World KEY_AUTHENTICATED KEY_REAL_IP).
Local Abbreviation register_view :=
  (@Routing.register_view World KEY_AUTHENTICATED KEY_REAL_IP).
Local Abbreviation routes_of :=
  (@Routing.routes_of World KEY_AUTHENTICATED KEY_REAL_IP).
Local Abbreviation routes_of_method :=
  (@Routing.routes_of_method World KEY_AUTHENTICATED KEY_REAL_IP).

Implicit Types (router : Router) (view : @View World).

Lemma add_routes_spec method urls h router :
  add_routes method urls h router
  = {| routes := routes router
                 ++ map (fun u => {| route_method := method; route_path := u;
                                     route_handler := h |}) urls;
       resources := resources router |}.
Proof.
  revert router. induction urls as [|u urls IH]; intros router; simpl.
  - rewrite app_nil_r. destruct router; reflexivity.
  - rewrite IH. simpl. rewrite <- app_assoc. reflexivity.
Qed.

(** The loop over the methods: it stops at the first method that is not
    acceptable, with the routes of those before it added. *)
Lemma register_methods_spec v ms urls router :
  register_methods v ms urls router
  = (if forallb acceptable ms then Return tt else Raise AssertionError,
     {| routes := routes router ++ routes_of v urls (acceptable_prefix ms);
        resources := resources router |}).
Proof.
  revert router. induction ms as [|[method [m|]] ms IH]; intros router.
  - simpl. unfold Routing.routes_of. simpl. rewrite app_nil_r.
    destruct router; reflexivity.
  - cbn [Routing.register_methods]. unfold request_handler_factory.
    unfold acceptable at 1. cbn [forallb acceptable_prefix snd].
    unfold acceptable at 1. cbn [snd].
    destruct (is_coroutine_or_callback m) eqn:Hm.
    + rewrite IH, add_routes_spec. simpl.
      unfold Routing.routes_of. cbn [flat_map].
      unfold Routing.routes_of_method at 2. cbn [snd fst].
      rewrite <- app_assoc. reflexivity.
    + simpl. unfold Routing.routes_of. simpl. rewrite app_nil_r.
      destruct router; reflexivity.
  - cbn [Routing.register_methods forallb acceptable_prefix].
    unfold acceptable at 1. unfold acceptable at 1. cbn [snd].
    rewrite IH. unfold Routing.routes_of. cbn [flat_map].
    unfold Routing.routes_of_method at 2. cbn [snd]. reflexivity.
Qed.

(** [register] in closed form. *)
Lemma register_spec view router :
  register view router
  = match url (attrs view) with
    | None => (Raise AssertionError, router)
    | Some u =>
        (if forallb acceptable (methods view) then Return tt
         else Raise AssertionError,
         {| routes := routes router
                      ++ routes_of (attrs view) (u :: extra_urls (attrs view))
                           (acceptable_prefix (methods view));
            resources := resources router |})
    end.
Proof.
  unfold Routing.register. destruct (url (attrs view)); [|reflexivity].
  apply register_methods_spec.
Qed.

(** X6: [register] asserts that the view has a URL, and otherwise goes
    through the methods [get], [post], [delete], [put] in this order: for
    each one the view defines it adds one route per URL, the view's [url]
    first and its [extra_urls] after, behind the routes there were; it
    stops with [AssertionError] at the first method that is neither a
    coroutine function nor a callback, the routes of the methods before it
    staying added.  Resources are not touched. *)
Theorem register_outcome view router :
  register view router
  = match url (attrs view) with
    | None => (Raise AssertionError, router)
    | Some u =>
        (if forallb acceptable (methods view) then Return tt
         else Raise AssertionError,
         {| routes := routes router
                      ++ routes_of (attrs view) (u :: extra_urls (attrs view))
                           (acceptable_prefix (methods view));
            resources := resources router |})
    end.
Proof.
  unfold Routing.register. destruct (url (attrs view)) as [u|]; [|reflexivity].
  rewrite register_methods_spec.
  destruct (forallb acceptable (methods view)); reflexivity.
Qed.

Lemma acceptable_prefix_all (ms : list (string * option (@Method World))) :
  forallb acceptable ms = true -> acceptable_prefix ms = ms.
Proof.
  induction ms as [|m ms IH]; simpl; [reflexivity|].
  destruct (acceptable m); simpl; [|discriminate].
  intros H. rewrite (IH H). reflexivity.
Qed.

Lemma length_routes_of v urls (ms : list (string * option (@Method World))) :
  length (routes_of v urls ms)
  = (length (filter (fun m => is_Some (snd m)) ms) * length urls)%nat.
Proof.
  unfold Routing.routes_of.
  induction ms as [|[method [m|]] ms IH]; simpl; [reflexivity| |].
  - rewrite length_app, IH. unfold Routing.routes_of_method. simpl.
    rewrite length_map.
    destruct (decide (is_Some (Some m))) as [_|Hn];
      [simpl; lia | exfalso; apply Hn; eexists; reflexivity].
  - rewrite IH.
    destruct (decide (is_Some (@None (@Method World)))) as [[? Hx]|_];
      [discriminate | reflexivity].
Qed.

(** X7: a registration that succeeds adds as many routes as the view
    defines methods, times the number of its URLs. *)
Theorem register_count view router router' :
  register view router = (Return tt, router') ->
  length (routes router')
  = (length (routes router)
     + defined_methods view * (1 + length (extra_urls (attrs view))))%nat.
Proof.
  rewrite register_spec.
  destruct (url (attrs view)) as [u|]; [|discriminate].
  destruct (forallb acceptable (methods view)) eqn:Hall; [|discriminate].
  rewrite (acceptable_prefix_all _ Hall). intros [= <-]. cbn [routes].
  rewrite length_app. f_equal.
  exact (length_routes_of (attrs view) (u :: extra_urls (attrs view))
           (methods view)).
Qed.

Lemma routes_of_guarded v urls (ms : list (string * option (@Method World)))
    route :
  In route (routes_of v urls ms) ->
  exists h, route_handler route
            = ViewHandler (handle KEY_AUTHENTICATED KEY_REAL_IP v h).
Proof.
  unfold Routing.routes_of. intros Hin. apply in_flat_map in Hin.
  destruct Hin as ([method [m|]] & _ & Hin);
    unfold Routing.routes_of_method in Hin; simpl in Hin; [|contradiction].
  apply in_map_iff in Hin as (u & <- & _). eexists; reflexivity.
Qed.

(** X8: every route [register] adds is behind the guards of the
    dispatcher: served while the host is not running it answers 503, and
    served on a running host without authentication, for a view that
    requires it, it raises [HTTPUnauthorized]; in both cases nothing else
    happens. *)
Theorem register_routes_guarded view router r router' :
  register view router = (r, router') ->
  exists added,
    routes router' = routes router ++ added
    /\ forall route request st,
         In route added ->
         (is_running (app_hass (app request)) = false ->
          serve_route (route_handler route) request st
          = (Answer (Return (web_Response None (PyInt 503))), st))
         /\ (is_running (app_hass (app request)) = true ->
             requires_auth (attrs view) = true ->
             truthy (authenticated_of KEY_AUTHENTICATED request) = false ->
             serve_route (route_handler route) request st
             = (Answer (Raise HTTPUnauthorized), st)).
Proof.
  rewrite register_spec.
  destruct (url (attrs view)) as [u|].
  - intros [= _ <-]. eexists. split; [reflexivity|].
    intros route request st Hin.
    apply routes_of_guarded in Hin as [h ->]. simpl.
    split.
    + intros Hrun. unfold handle. rewrite Hrun. reflexivity.
    + intros Hrun Hreq Ht. unfold handle. rewrite Hrun, Hreq, Ht. reflexivity.
  - intros [= _ <-]. exists []. split; [rewrite app_nil_r; reflexivity|].
    intros route request st [].
Qed.

(** X9: [register_view] registers nothing and reports the missing
    attribute when the view has no [url], or else no [name]; otherwise it
    does what [register] does.  Given a class, it calls it first: when the
    constructor raises, the exception goes on and nothing is registered;
    when it gives an instance, the class is registered as that instance
    is. *)
Theorem register_view_outcome (v : @ViewObject World) router :
  (forall e, register_view (ViewClass (Raise e)) router = (Failed e, router))
  /\ register_view (ViewClass (Return v)) router
     = register_view (ViewInstance v) router
  /\ register_view (ViewInstance v) router
     = if negb (has_url v) then (AttributeError (class_name v) "url", router)
       else if negb (has_name v)
       then (AttributeError (class_name v) "name", router)
       else match url (attrs (the_view v)) with
            | None => (Failed AssertionError, router)
            | Some u =>
                (if forallb acceptable (methods (the_view v)) then Registered
                 else Failed AssertionError,
                 {| routes :=
                      routes router
                      ++ routes_of (attrs (the_view v))
                           (u :: extra_urls (attrs (the_view v)))
                           (acceptable_prefix (methods (the_view v)));
                    resources := resources router |})
            end.
Proof.
  split; [reflexivity|]. split; [reflexivity|].
  unfold Routing.register_view.
  destruct (has_url v); cbn [negb]; [|reflexivity].
  destruct (has_name v); cbn [negb]; [|reflexivity].
  rewrite register_spec.
  destruct (url (attrs (the_view v))); [|reflexivity].
  destruct (forallb acceptable (methods (the_view v))); reflexivity.
Qed.

(** X10: no registration removes or changes what is registered: after
    [register], [register_view], [register_redirect] and
    [register_static_path], whether they succeed or fail, the routes and
    the resources there were come first, as they were. *)
Theorem registration_keeps_routes router :
  (forall view,
     routes router `prefix_of` routes (snd (register view router))
     /\ resources (snd (register view router)) = resources router)
  /\ (forall v,
        routes router `prefix_of` routes (snd (register_view v router))
        /\ resources (snd (register_view v router)) = resources router)
  /\ (forall url redirect_to,
        routes (register_redirect url redirect_to router)
        = routes router
          ++ [{| route_method := "GET"; route_path := url;
                 route_handler := RedirectTo redirect_to |}]
        /\ resources (register_redirect url redirect_to router)
           = resources router)
  /\ (forall isdir url_path path cache_headers,
        routes router
          `prefix_of` routes (snd (register_static_path isdir url_path path
                                     cache_headers router))
        /\ resources router
             `prefix_of` resources (snd (register_static_path isdir url_path
                                           path cache_headers router))).
Proof.
  assert (Hreg : forall view,
             routes router `prefix_of` routes (snd (register view router))
             /\ resources (snd (register view router)) = resources router).
  { intros view. rewrite register_spec.
    destruct (url (attrs view)); simpl; [|split; reflexivity].
    split; [eexists; reflexivity | reflexivity]. }
  split; [exact Hreg|]. split; [|split].
  - intros v. unfold Routing.register_view.
    destruct v as [[v|e]|v]; simpl; try (split; reflexivity);
      (destruct (has_url v); simpl; [|split; reflexivity]);
      (destruct (has_name v); simpl; [|split; reflexivity]);
      specialize (Hreg (the_view v));
      destruct (register (the_view v) router) as [[?|?] ?]; exact Hreg.
  - intros url redirect_to. split; reflexivity.
  - intros isdir url_path path cache_headers.
    unfold register_static_path.
    destruct (isdir path); simpl.
    + split; [reflexivity | eexists; reflexivity].
    + destruct (static_url_pattern url_path); simpl;
        split; try reflexivity; eexists; reflexivity.
Qed.

(** X11: for a path that is not a directory, when the URL path has an
    extension and no slash, [register_static_path] raises [ValueError], from
    the unpacking of [rsplit], before it gets to the router: nothing is
    registered. *)
Theorem register_static_path_raise isdir url_path path cache_headers router :
  isdir path = false ->
  snd (splitext (String.list_ascii_of_string url_path)) <> [] ->
  ~ In "/"%char (String.list_ascii_of_string url_path) ->
  register_static_path isdir url_path path cache_headers router
  = (Raise ValueError, router).
Proof.
  intros Hdir Hext Hsep. unfold register_static_path, static_url_pattern.
  rewrite Hdir.
  assert (url_pattern_of (String.list_ascii_of_string url_path)
          = Raise ValueError) as ->
    by (apply url_pattern_of_raise; repeat split; assumption).
  reflexivity.
Qed.

(** X12: for a path that is not a directory and a URL path that holds a
    slash, [register_static_path] adds one [GET] route, which serves the
    file with or without cache headers as asked; its pattern is the URL path
    when this has no extension, and else [dir/{filename:file(-[a-z0-9]{32}|).ext}]
    for the URL path [dir/file.ext]. *)
Theorem register_static_path_file isdir url_path path cache_headers router :
  isdir path = false ->
  In "/"%char (String.list_ascii_of_string url_path) ->
  exists pattern,
    register_static_path isdir url_path path cache_headers router
    = (Return tt,
       add_route "GET" (String.string_of_list_ascii pattern)
         (ServeFile cache_headers path) router)
    /\ ((snd (splitext (String.list_ascii_of_string url_path)) = []
         /\ String.string_of_list_ascii pattern = url_path)
        \/ exists dir file ext,
             String.list_ascii_of_string url_path = dir ++ "/"%char :: file ++ ext
             /\ snd (splitext (String.list_ascii_of_string url_path)) = ext
             /\ ext <> [] /\ ~ In "/"%char file
             /\ pattern = dir ++ filename_open ++ file ++ md5_suffix ++ ext
                          ++ filename_close).
Proof.
  intros Hdir Hsep. unfold register_static_path, static_url_pattern.
  rewrite Hdir.
  destruct (url_pattern_of (String.list_ascii_of_string url_path))
    as [pattern|e] eqn:Hp; simpl.
  - exists pattern. split; [reflexivity|].
    destruct (url_pattern_of_return _ _ Hp)
      as [[Hext ->]|(dir & file & ext & H1 & H2 & H3 & H4 & _ & H5)].
    + left. split; [exact Hext|].
      apply String.string_of_list_ascii_of_string.
    + right. exists dir, file, ext. repeat split; assumption.
  - apply url_pattern_of_raise in Hp as (_ & _ & Hn). contradiction.
Qed.

End RoutingFacts.

(** ** More on starting and stopping *)

Section LifecycleMore.
Import Py Lifecycle Shutdown.

(** X13: when the certificate, if any, is read and the bind succeeds,
    [start] returns normally with the server recorded, the handler
    installed, the prepared middlewares in place and the application not
    frozen. *)
Theorem start_success env self context srv :
  tls_context env self = Return context ->
  create_server env AppHandler (server_host self) (server_port self) context
  = Return srv ->
  exists self',
    start env self = (Return tt, self')
    /\ server self' = Some srv
    /\ _handler self' = Some AppHandler
    /\ app_middlewares_prepared self' = true
    /\ app_frozen self' = false
    /\ steps self'
       = steps self ++ [AppStartup]
         ++ match context with Some _ => [CertLoaded] | None => [] end
         ++ [HandlerMade; ServerCreated; MiddlewaresPrepared].
Proof.
  intros Hctx Hbind. unfold start, tls_context in *.
  destruct self as [cert key host port frozen prepared h s stps];
    simpl in *.
  destruct cert as [c|]; [destruct (String.eqb c "")|]; simpl in *.
  - injection Hctx as <-. unfold listen; simpl. rewrite Hbind.
    eexists; split; [reflexivity|]. simpl.
    rewrite <- !app_assoc. repeat split.
  - destruct (load_cert_chain env c key) as [ctx|e]; simpl in *;
      [|discriminate].
    injection Hctx as <-. unfold listen; simpl. rewrite Hbind.
    eexists; split; [reflexivity|]. simpl.
    rewrite <- !app_assoc. repeat split.
  - injection Hctx as <-. unfold listen; simpl. rewrite Hbind.
    eexists; split; [reflexivity|]. simpl.
    rewrite <- !app_assoc. repeat split.
Qed.

(** X14: when the certificate chain cannot be read ([OSError]), [start]
    logs the error and returns at once: no bind is attempted, whatever the
    event loop would have answered, no handler is made, no server recorded,
    and the application is not frozen. *)
Theorem start_certificate_unreadable env self certificate error :
  ssl_certificate self = Some certificate ->
  certificate <> "" ->
  load_cert_chain env certificate (ssl_key self) = Raise (OSError error) ->
  exists self',
    (forall bind,
       start {| load_cert_chain := load_cert_chain env;
                create_server := bind |} self = (Return tt, self'))
    /\ _handler self' = _handler self
    /\ server self' = server self
    /\ app_frozen self' = app_frozen self
    /\ app_middlewares_prepared self' = app_middlewares_prepared self
    /\ steps self'
       = steps self ++ [AppStartup; CertErrorLogged certificate error].
Proof.
  intros Hc Hne Hl.
  exists (did (CertErrorLogged certificate error) (did AppStartup self)).
  split.
  - intros bind. unfold start. simpl. rewrite Hc.
    destruct (String.eqb_spec certificate ""); [contradiction|].
    rewrite Hl. reflexivity.
  - simpl. rewrite <- app_assoc. repeat split.
Qed.

(** X15: [start] leaves the application frozen in one case only: when the
    bind raises something other than [OSError]; the exception then goes on
    to the caller, with the handler already installed. *)
Theorem start_frozen_iff env self :
  app_frozen self = false ->
  app_frozen (snd (start env self)) = true
  <-> exists context e,
        tls_context env self = Return context
        /\ create_server env AppHandler (server_host self) (server_port self)
             context = Raise e
        /\ (forall error, e <> OSError error)
        /\ fst (start env self) = Raise e
        /\ _handler (snd (start env self)) = Some AppHandler.
Proof.
  intros Hf. unfold start, tls_context.
  destruct self as [cert key host port frozen prepared h s stps];
    simpl in *. subst frozen.
  assert (Hlisten : forall context self0,
            server_host self0 = host -> server_port self0 = port ->
            app_frozen (snd (listen env context self0)) = true
            <-> exists e,
                  create_server env AppHandler host port context = Raise e
                  /\ (forall error, e <> OSError error)
                  /\ fst (listen env context self0) = Raise e
                  /\ _handler (snd (listen env context self0))
                     = Some AppHandler).
  { intros context self0 Hh Hp. unfold listen. simpl. rewrite Hh, Hp.
    destruct (create_server env AppHandler host port context) as [srv|e];
      simpl.
    - split; [discriminate | intros (e & He & _); discriminate].
    - destruct e; simpl;
        try (split; [intros _; eexists; repeat split; discriminate
                    | reflexivity]).
      split; [discriminate|].
      intros (e & [= <-] & Hne & _). exfalso. eapply Hne. reflexivity. }
  destruct cert as [c|]; [destruct (String.eqb c "")|]; simpl.
  - rewrite Hlisten by reflexivity. split.
    + intros (e & H1 & H2 & H3 & H4). exists None, e. repeat split; assumption.
    + intros (context & e & [= <-] & H1 & H2 & H3 & H4).
      exists e. repeat split; assumption.
  - destruct (load_cert_chain env c key) as [ctx|e]; simpl.
    + rewrite Hlisten by reflexivity. split.
      * intros (e & H1 & H2 & H3 & H4).
        exists (Some ctx), e. repeat split; assumption.
      * intros (context & e & [= <-] & H1 & H2 & H3 & H4).
        exists e. repeat split; assumption.
    + destruct e; simpl; (split; [discriminate|]);
        intros (context & e' & Hx & _); discriminate.
  - rewrite Hlisten by reflexivity. split.
    + intros (e & H1 & H2 & H3 & H4). exists None, e. repeat split; assumption.
    + intros (context & e & [= <-] & H1 & H2 & H3 & H4).
      exists e. repeat split; assumption.
Qed.

(** What [start] has set on a server that was not started before. *)
Lemma start_acquired env certificate key host port :
  let self' := snd (start env (init certificate key host port)) in
  (is_Some (server self') <-> In ServerCreated (steps self'))
  /\ (is_Some (_handler self') <-> In HandlerMade (steps self'))
  /\ (is_Some (server self') -> is_Some (_handler self')).
Proof.
  assert (Hs : forall A (x : A), is_Some (Some x)) by (intros; eexists; reflexivity).
  assert (Hn : forall A, ~ is_Some (@None A)) by (intros A [x Hx]; discriminate).
  unfold start, init, listen. simpl.
  destruct certificate as [c|]; [destruct (String.eqb c "")|]; simpl;
    try (destruct (load_cert_chain env c key) as [ctx|[]]; simpl);
    try (destruct (create_server env AppHandler host port _) as [srv|[]];
         simpl);
    repeat split; intros H; try apply Hs; try (exfalso; eapply Hn; exact H);
    try tauto;
    repeat (destruct H as [H|H]; try discriminate H); try contradiction.
Qed.

(** X16: after [start] on a server that was never started, however it
    went, [stop] releases what [start] acquired: it closes the server
    exactly when one was created, and shuts the handler down, with ten
    seconds of grace, exactly when one was made; a server is never closed
    without the handler being shut down, and the application is always shut
    down and cleaned up. *)
Theorem stop_after_start env certificate key host port :
  let self' := snd (start env (init certificate key host port)) in
  (In ServerClosed (stop self') <-> In ServerCreated (steps self'))
  /\ (In (HandlerShutdown 10) (stop self') <-> In HandlerMade (steps self'))
  /\ (stop self' = [AppShutdown; AppCleanup]
      \/ stop self' = [AppShutdown; HandlerShutdown 10; AppCleanup]
      \/ stop self' = [ServerClosed; ServerWaitClosed; AppShutdown;
                       HandlerShutdown 10; AppCleanup]).
Proof.
  intros self'.
  destruct (start_acquired env certificate key host port) as (Hsrv & Hh & Himp).
  fold self' in Hsrv, Hh, Himp. unfold stop.
  destruct (server self') as [srv|]; destruct (_handler self') as [h|]; simpl.
  - split; [|split; [|right; right; reflexivity]].
    + split; [intros _; apply Hsrv; eexists; reflexivity | intros _; left; reflexivity].
    + split; [intros _; apply Hh; eexists; reflexivity
             | intros _; right; right; right; left; reflexivity].
  - exfalso. destruct Himp as [x Hx]; [eexists; reflexivity | discriminate].
  - split; [|split; [|right; left; reflexivity]].
    + split; [intros [H|[H|[H|[]]]]; discriminate
             | intros H; apply Hsrv in H as [x Hx]; discriminate].
    + split; [intros _; apply Hh; eexists; reflexivity
             | intros _; right; left; reflexivity].
  - split; [|split; [|left; reflexivity]].
    + split; [intros [H|[H|[]]]; discriminate
             | intros H; apply Hsrv in H as [x Hx]; discriminate].
    + split; [intros [H|[H|[]]]; discriminate
             | intros H; apply Hh in H as [x Hx]; discriminate].
Qed.

End LifecycleMore.

(** ** Setting up *)

Section SetupFacts.
Import Py Setup.
Variable SERVER_PORT : Z.
Variable local_ip : string.

Local Abbreviation async_setup := (Setup.async_setup SERVER_PORT local_ip).



(** When the start event comes, [stop_server] is registered before the
    server is started, and so also when the start fails. *)
Lemma start_server_registers_stop env registered server :
  let '(r, registered', server') := start_server env registered server in
  registered' = registered ++ [(EVENT_HOMEASSISTANT_STOP, StopServer)]
  /\ (r, server') = Lifecycle.start env server.
Proof.
  unfold start_server. destruct (Lifecycle.start env server) as [r server'].
  split; reflexivity.
Qed.

(** The middlewares [__init__] installs, in their order: the ban
    tracker is there exactly when bans are enabled, CORS exactly when
    origins are configured, the authentication always; and the ban tracker
    comes before the authentication, CORS after it. *)
Theorem HomeAssistantHTTP_init_order cfg :
  exists before after,
    Bans.HomeAssistantHTTP_init cfg
    = Bans.staticresource_middleware
      :: Bans.real_ip_middleware (Bans.use_x_forwarded_for cfg)
      :: before
      ++ Bans.auth_middleware (Bans.trusted_networks cfg)
           (Bans.api_password cfg)
      :: after
    /\ before = (if Bans.is_ban_enabled cfg
                 then [Bans.ban_middleware (Bans.login_threshold cfg)]
                 else [])
    /\ after = (match Bans.cors_origins cfg with
                | [] => []
                | _ :: _ => [Bans.cors_middleware (Bans.cors_origins cfg)]
                end)
    /\ (forall t, ~ In (Bans.ban_middleware t) after)
    /\ (forall o, ~ In (Bans.cors_middleware o) before).
Proof.
  exists (if Bans.is_ban_enabled cfg
          then [Bans.ban_middleware (Bans.login_threshold cfg)] else []),
         (match Bans.cors_origins cfg with
          | [] => []
          | _ :: _ => [Bans.cors_middleware (Bans.cors_origins cfg)]
          end).
  unfold Bans.HomeAssistantHTTP_init.
  destruct (Bans.is_ban_enabled cfg); destruct (Bans.cors_origins cfg);
    (split; [reflexivity|]);
    repeat split; intros x H; simpl in H;
    repeat (destruct H as [H|H]; try discriminate H); try contradiction.
Qed.

End SetupFacts.

(** ** The further properties at sample inputs *)

Section MoreChecks.
Import Py Samples MoreSamples.

Lemma handle_answers_iff_witness :
  (exists r, fst (handle api_view (returning (PyStr text))
                    (request_of true (Some (PyBool true))) st0) = Return r)
  <-> Dispatch.conforming (PyStr text) = true
      /\ forallb encodable (Outcomes.text_of (PyStr text)) = true.
Proof.
  apply (@handle_answers_iff unit KEY_AUTHENTICATED KEY_REAL_IP
           api_view (returning (PyStr text))
           (request_of true (Some (PyBool true))) st0 (PyStr text) tt).
  - exact admitted_sample.
  - reflexivity.
  - reflexivity.
Defined.

Lemma handle_raise_cases_witness :
  fst (handle api_view (returning (PyInt 42))
         (request_of true (Some (PyBool true))) st0) = Raise AssertionError
  /\ Outcomes.raised_by_handle AssertionError = true.
Proof.
  assert (He : fst (handle api_view (returning (PyInt 42))
                      (request_of true (Some (PyBool true))) st0)
               = Raise AssertionError) by reflexivity.
  split; [exact He|].
  assert (Hv : forall v,
             fst (returning (PyInt 42) (request_of true (Some (PyBool true)))
                    (Dispatch.match_info (request_of true (Some (PyBool true))))
                    (Dispatch.world st0)) = Return v ->
             Outcomes.int_status v = true)
    by (intros v [= <-]; reflexivity).
  destruct (@handle_raise_cases unit KEY_AUTHENTICATED KEY_REAL_IP
              api_view (returning (PyInt 42))
              (request_of true (Some (PyBool true))) st0 AssertionError Hv He)
    as [(H & _)|[(_ & H)|(_ & v & _ & H & _)]];
    [discriminate H | discriminate H | exact H].
Defined.

Lemma handle_text_round_trip_witness :
  exists bs,
    body (Dispatch.web_Response (Some text_utf8) (PyInt 404)) = Some bs
    /\ forallb is_octet bs = true /\ bytes_decode bs = Some text.
Proof.
  apply (@handle_text_round_trip unit KEY_AUTHENTICATED KEY_REAL_IP
           api_view (returning (PyTuple [PyStr text; PyInt 404]))
           (request_of true (Some (PyBool true))) st0 text
           (PyTuple [PyStr text; PyInt 404]) tt).
  - exact admitted_sample.
  - reflexivity.
  - right. exists (PyInt 404). reflexivity.
  - reflexivity.
Defined.

(** The example of the source: the MD5 suffix is let in before the
    extension. *)
Example static_url_pattern_dev_panel :
  Routing.static_url_pattern "/static/dev-panel.html"
  = Return "/static/{filename:dev-panel(-[a-z0-9]{32}|).html}".
Proof. reflexivity. Qed.

(** A dot file has no extension. *)
Example static_url_pattern_dot_file :
  Routing.static_url_pattern "/static/.well-known"
  = Return "/static/.well-known".
Proof. reflexivity. Qed.

Lemma url_pattern_of_return_witness :
  (snd (Routing.splitext (String.list_ascii_of_string "/static/dev-panel.html"))
   = []
   /\ String.list_ascii_of_string
        "/static/{filename:dev-panel(-[a-z0-9]{32}|).html}"
      = String.list_ascii_of_string "/static/dev-panel.html")
  \/ exists dir file ext,
       String.list_ascii_of_string "/static/dev-panel.html"
       = dir ++ "/"%char :: file ++ ext
       /\ snd (Routing.splitext
                 (String.list_ascii_of_string "/static/dev-panel.html")) = ext
       /\ ext <> []
       /\ ~ In "/"%char file
       /\ existsb (fun ch => negb (Ascii.eqb ch "."%char)) file = true
       /\ String.list_ascii_of_string
            "/static/{filename:dev-panel(-[a-z0-9]{32}|).html}"
          = dir ++ Routing.filename_open ++ file ++ Routing.md5_suffix ++ ext
            ++ Routing.filename_close.
Proof.
  apply (url_pattern_of_return
           (String.list_ascii_of_string "/static/dev-panel.html")
           (String.list_ascii_of_string
              "/static/{filename:dev-panel(-[a-z0-9]{32}|).html}")).
  reflexivity.
Defined.

Lemma register_count_witness :
  length (Routing.routes (snd (register states_view no_routes))) = 4%nat.
Proof.
  apply (@register_count unit KEY_AUTHENTICATED KEY_REAL_IP
           states_view no_routes (snd (register states_view no_routes))).
  reflexivity.
Defined.

Lemma register_routes_guarded_witness :
  exists added,
    Routing.routes (snd (register states_view no_routes))
    = Routing.routes no_routes ++ added
    /\ length added = 4%nat.
Proof.
  destruct (@register_routes_guarded unit KEY_AUTHENTICATED KEY_REAL_IP
              states_view no_routes (Return tt)
              (snd (register states_view no_routes)) eq_refl)
    as (added & Hr & _).
  exists added. split; [exact Hr|].
  simpl in Hr. rewrite <- Hr. reflexivity.
Defined.

Lemma register_static_path_raise_witness :
  Routing.register_static_path only_files "robots.txt" "/www/robots.txt"
    true no_routes
  = (Raise ValueError, no_routes).
Proof.
  apply (@register_static_path_raise unit only_files "robots.txt"
           "/www/robots.txt" true no_routes eq_refl).
  - discriminate.
  - intros H. simpl in H.
    repeat (destruct H as [H|H]; [discriminate H|]). exact H.
Defined.

Lemma register_static_path_file_witness :
  exists pattern,
    Routing.register_static_path only_files "/static/dev-panel.html"
      "/www/dev-panel.html" true no_routes
    = (Return tt,
       Routing.add_route "GET" (String.string_of_list_ascii pattern)
         (Routing.ServeFile true "/www/dev-panel.html") no_routes).
Proof.
  destruct (@register_static_path_file unit only_files
              "/static/dev-panel.html" "/www/dev-panel.html" true no_routes
              eq_refl) as (pattern & H & _).
  - left. reflexivity.
  - exists pattern. exact H.
Defined.

Lemma start_success_witness :
  exists self',
    Lifecycle.start port_free tls_server = (Return tt, self')
    /\ Lifecycle.server self' = Some bound
    /\ Lifecycle.app_frozen self' = false.
Proof.
  destruct (start_success port_free tls_server
              (Some {| Lifecycle.cert_chain := "/ssl/fullchain.pem";
                       Lifecycle.private_key := Some "/ssl/privkey.pem" |})
              bound eq_refl eq_refl)
    as (self' & Hs & Hsrv & _ & _ & Hf & _).
  exists self'. repeat split; assumption.
Defined.

Lemma start_certificate_unreadable_witness :
  exists self',
    Lifecycle.start certificate_unreadable tls_server = (Return tt, self')
    /\ Lifecycle._handler self' = None
    /\ Lifecycle.server self' = None.
Proof.
  destruct (start_certificate_unreadable certificate_unreadable tls_server
              "/ssl/fullchain.pem" "no such file" eq_refl
              ltac:(discriminate) eq_refl)
    as (self' & Hs & Hh & Hsrv & _).
  exists self'. split; [exact (Hs _)|]. split; assumption.
Defined.

Lemma start_frozen_iff_witness :
  Lifecycle.app_frozen (snd (Lifecycle.start loop_closed plain_server)) = true.
Proof.
  apply (start_frozen_iff loop_closed plain_server eq_refl).
  exists None, (OtherError "RuntimeError").
  repeat split; try reflexivity. intros error. discriminate.
Defined.

(** After the failed bind of the claim, [stop] shuts the handler down and
    closes no server. *)
Example stop_after_port_taken :
  Shutdown.stop (snd (Lifecycle.start port_taken plain_server))
  = [Shutdown.AppShutdown; Shutdown.HandlerShutdown 10; Shutdown.AppCleanup].
Proof. reflexivity. Qed.

End MoreChecks.
